(* ===== verification/_CoqProject ===== *)
-Q . S2P
Prelude.v
JsNumber.v
JsValue.v
Catalog.v
Effects.v
Base64.v
PayPal.v
Orders.v
Spec.v
Handlers.v
