(* ===== verification/Prelude.v ===== *)
(** * PaposWorld payment relay: a verification development of [src/server.js]

    The program.  [src/server.js] is an Express server that relays a
    storefront's payments to two processors: PayPal (the "wallet"
    processor: OAuth client-credential exchange, client tokens, order
    creation and capture) and Stripe (the "card" processor: payment
    intents).  It holds no state between requests: every handler reads
    the request, validates it, performs one or two outbound calls in a
    fixed order and turns the result or the caught exception into an HTTP
    status and a JSON body.  The only data it consults is the constant
    catalog [FLAVORS] (lines 20-33) and the configuration read from the
    environment at start-up (lines 8, 15-17, 36).

    How the development models it.  JavaScript is modelled by a shallow
    embedding: every handler is a Rocq function from the request to a
    program of the [Effects.Relay.relay] monad, a finite interaction tree
    whose nodes are the outbound calls ([axios.post], the Stripe SDK) and
    whose leaves are a value or a thrown JavaScript error.  A [try/catch]
    is [Effects.Relay.try_catch], an [await] on a rejected promise is a
    [throw].  Running a program against a processor is
    [Effects.Relay.run]: the processor is a state machine given as a
    parameter (its own semantics is not code of this repository), and the
    run returns the result together with the list of calls made, which is
    how the order of the calls is observed.

    Files, in dependency order (see [_CoqProject]):
    - [Prelude]   this header, the [relay_scope] notation scope, the hint
                  databases [relay] and [relay_simpl], the shared tactics
                  and the generic lemmas on strings and integers.
    - [JsNumber]  Module [Number]: JavaScript numbers as exact decimals
                  [Fin m e = m * 10^e] with [NaN], the infinities and the
                  overflow and underflow thresholds of binary64; [+], [*],
                  [<=], ToBoolean, [Number::toString], [parseInt],
                  [parseFloat], StringToNumber and [toFixed] as ECMA-262
                  specifies them; amounts in cents ([cents]).
    - [JsValue]   Module [Value]: the JSON values [express.json()] gives
                  the handlers ([jsval]), errors ([js_error]: message,
                  [error.response], [error.request]), the fallible
                  computations ([res]), ToBoolean, ToString (which throws
                  on an object that cannot be converted), property reads
                  with V8's TypeError messages, destructuring, [v <= 0]
                  and [JSON.stringify].
    - [Catalog]   Module [Catalog]: [FLAVORS] (lines 20-33) and the lookup
                  [FLAVORS[item.id]] (line 162) through [Object.prototype];
                  the type class [Catalog] is the interface the order
                  handler is written against and [CatalogWf] its law
                  (every entry found costs the same whole number of
                  dollars); [FLAVORS] is an instance of both.
    - [Effects]   Module [Relay]: outbound calls ([call]), the [relay]
                  programs, [try_catch], [await], HTTP responses, [run]
                  against a processor and the example processor
                  [scripted] that answers from a list of replies.
    - [Base64]    Module [Base64]: [Buffer.from(s).toString('base64')]
                  (line 46) with shifts and masks, and a reference decoder.
    - [PayPal]    Module [PayPal]: the configuration ([config_of_env],
                  lines 15-17 and 36), [getPayPalAccessToken] (40-78) and
                  [generatePayPalClientToken] (81-99).
    - [Orders]    Module [Orders]: [POST /api/orders] (134-253) as
                  [handle_create_order], with its cart loop
                  ([cart_step], [cart_loop]), payload ([order_payload]),
                  order call ([place_order]) and catch
                  ([create_order_error]); the legacy
                  [POST /paypal-api/checkout/orders/create] (256-289).
    - [Spec]      Module [Spec]: the abstract specification of order
                  creation over typed carts ([spec_create_order]) and the
                  refinement theorem.
    - [Handlers]  Module [Handlers]: client token (102-131), the two
                  capture routes (292-361), the two Stripe routes
                  (364-423) and [/health] (426-428).

    What is proved.  The claims are listed in PROJECT.json and numbered
    C1-C27 in the doc comments of their theorems.
    - Refinement (Spec, C1): on the JSON of any cart of catalog lines with
      positive quantities, [handle_create_order] is the abstract program
      whose totals are integer sums of cents; the two-decimal texts sent
      to PayPal are those of the exact sums.
    - Runs and call order (Spec C2, C3, C27; Orders C24; Handlers C11,
      C13-C16, C18; PayPal C22, C23): for every processor, which calls each
      handler makes, in which order, with which URL, body and headers,
      and which response it gives for each reply, errors included.  The
      token exchange always comes first and its token is the [Bearer] of
      the next call.
    - Validation and configuration (Orders C4, C5, C8; Handlers C9, C10,
      C12, C17; PayPal C21): invalid input and a missing secret are
      answered without any call, and which invalid amounts still reach
      Stripe.
    - Values (Orders C6, C7, C25, C26; PayPal C20): the prices and
      quantities the cart loop reads, and the credentials of the token
      request, through the base64 round trip
      [decode (encode bs) = Some bs].
    - Equivalence of the two capture routes (Handlers C19).
    Several of these theorems record where the code departs from the
    specification; PROJECT.json lists them as findings.  They cover catalog
    lookups that reach [Object.prototype], negative and fractional
    quantities, non-numeric Stripe amounts, error statuses that are not
    mirrored, an unchecked client token, and a created order reported as
    a failure.

    Bounds.  JavaScript numbers are modelled as exact decimals.  The
    model agrees with binary64 on the integers of magnitude at most 2^53,
    and on their sums and products that stay in that range.  The theorems
    about amounts are stated on that range: quantities and totals of at
    most 2^53 (whole) dollars, and prices in whole dollars ([CatalogWf]).
    Beyond it, binary64 rounds and the model does not.  The overflow to
    Infinity above [Number.MAX_VALUE] and the underflow to 0 are
    modelled.  The digit functions of [JsNumber] recurse on fuel (the
    number of decimal digits plus one), which is proved sufficient
    ([digits_fuel_enough]).  Strings are Rocq strings of bytes (UTF-8),
    not UTF-16 code units.  The catalog and all literals of the program
    are ASCII, except the name "Café Con Crunch", which is only copied.

    Not modelled: the Express framework itself (middleware, routing,
    static files on line 431, [listen] on lines 434-440), logging
    ([console.*], which has no effect on responses), the processors'
    internals (every theorem holds for any processor), and [dotenv] (the
    environment is a parameter). *)

From stdpp Require Export base decidable list strings.
From Stdlib Require Export ZArith Lia String Ascii.

Declare Scope relay_scope.
Delimit Scope relay_scope with relay.

(** Strings are built with [++] of [string_scope]. *)
Open Scope string_scope.

(** The hint database of the development: rewriting and resolution lemmas
    about the modelled operations are added to it by each component. *)
Create HintDb relay discriminated.
Create Rewrite HintDb relay_simpl.

(** ** Tactics *)

(** Invert a hypothesis and clean up. *)
Ltac invc H := inversion H; subst; clear H.

(** Case on the first [match] or [if] in the goal, keeping the equation. *)
Ltac case_goal :=
  match goal with
  | |- context [match ?x with _ => _ end] =>
      let E := fresh "E" in destruct x eqn:E
  end.

(** Close a goal of the form [bool_expr = true] that follows from
    arithmetic. *)
Ltac zbool :=
  repeat match goal with
  | |- (_ <? _)%Z = true => apply Z.ltb_lt
  | |- (_ <=? _)%Z = true => apply Z.leb_le
  | |- (_ <? _)%Z = false => apply Z.ltb_ge
  | |- (_ <=? _)%Z = false => apply Z.leb_gt
  | |- (_ =? _)%Z = true => apply Z.eqb_eq
  | |- (_ =? _)%Z = false => apply Z.eqb_neq
  end; lia.

(** Arithmetic with division and remainder by constants: name the
    quotients and remainders, then [lia]. *)
Ltac zdiv := Z.to_euclidean_division_equations; lia.

(** ** Generic lemmas *)

Section ListLemmas.
Context {A : Type}.

(** A left fold whose step adds [f x] to an accumulator is the
    accumulator plus the sum of [f] over the list. *)
Lemma fold_left_add_Z (f : A -> Z) (l : list A) (acc : Z) :
  fold_left (fun s x => s + f x)%Z l acc = (acc + fold_right (fun x s => f x + s) 0 l)%Z.
Proof.
  revert acc; induction l as [|x l IH]; intros acc; simpl; [lia|].
  rewrite IH; lia.
Qed.
End ListLemmas.

(** String concatenation, which stdpp keeps from unfolding under [simpl]. *)
Lemma append_empty_l (t : string) : "" ++ t = t.
Proof. reflexivity. Qed.

Lemma append_String_l (c : ascii) (s t : string) : String c s ++ t = String c (s ++ t).
Proof. reflexivity. Qed.

Lemma append_empty_r (s : string) : s ++ "" = s.
Proof. induction s as [|c s IH]; [reflexivity|]. rewrite append_String_l, IH. reflexivity. Qed.

#[export] Hint Rewrite append_empty_l append_String_l append_empty_r : relay_simpl.

Lemma Z_pow_pos_nonneg (b e : Z) : (0 <= b)%Z -> (0 <= b ^ e)%Z.
Proof. intros; apply Z.pow_nonneg; lia. Qed.

Lemma Z_pow10_pos (e : Z) : (0 <= e)%Z -> (0 < 10 ^ e)%Z.
Proof. intros; apply Z.pow_pos_nonneg; lia. Qed.

#[export] Hint Resolve Z_pow10_pos : relay.
