(* ===== verification/JsNumber.v ===== *)
(** * JavaScript numbers

    The [Number] values the handlers of [src/server.js] compute with, and
    the built-ins they call on them: [parseInt] (line 165), [parseFloat]
    (line 164), [Number.prototype.toFixed] (lines 173, 195, 199),
    [Number.prototype.toString] (line 170), [+] and [*] (line 166) and the
    relational comparison [<=] (lines 181, 368).  These are ECMA-262
    built-ins, not code of the repository: they are modelled from the
    standard (sections 7.1.12.1, 19.2.4, 19.2.5, 21.1.3.3, 7.1.4.1.1).

    A finite number is an exact decimal [Fin m e = m * 10^e].  Results are
    passed through [round_dec], which applies the two thresholds of
    binary64 round-to-nearest: a magnitude at least [2^1024 - 2^970]
    becomes an infinity and a magnitude at most [2^-1075] becomes zero.
    The sign of zero is not kept: no operation the relay performs can tell
    [-0] from [+0] ([ToBoolean], [ToString], [<=] and [toFixed] agree on
    them). *)

From Stdlib Require Import Zwf.
From S2P Require Import Prelude.

Module Number.
Open Scope Z_scope.

Inductive num :=
| NaN
| PosInf
| NegInf
| Fin (m e : Z).

(** ** Decimal digits *)

(** Digits of [n >= 0], least significant first; the fuel is the number
    of binary digits, which bounds the number of decimal ones. *)
Fixpoint digits_rev_fuel (fuel : nat) (n : Z) : list Z :=
  match fuel with
  | O => []
  | S f => if n <? 10 then [n] else n mod 10 :: digits_rev_fuel f (n / 10)
  end.

Definition digits_fuel (n : Z) : nat := S (Z.to_nat (Z.log2 n)).

(** Digits of [n >= 0], most significant first ([digits 0 = [0]]). *)
Definition digits (n : Z) : list Z := rev (digits_rev_fuel (digits_fuel n) n).

Definition ndigits (n : Z) : Z := Z.of_nat (List.length (digits n)).

(** The value of a digit list read most significant first, in [radix]. *)
Definition digits_val_radix (radix : Z) (l : list Z) : Z :=
  fold_left (fun acc d => acc * radix + d) l 0.

Definition digits_val (l : list Z) : Z := digits_val_radix 10 l.

Definition digit_char (d : Z) : ascii := ascii_of_nat (48 + Z.to_nat d).
Arguments digit_char : simpl never.

Fixpoint string_of_digits (l : list Z) : string :=
  match l with
  | [] => EmptyString
  | d :: l' => String (digit_char d) (string_of_digits l')
  end.

(** The decimal representation of [n >= 0]. *)
Definition Z_to_dec (n : Z) : string := string_of_digits (digits n).

Fixpoint zeros (k : nat) : string :=
  match k with
  | O => EmptyString
  | S k' => String "0"%char (zeros k')
  end.

(** Remove the trailing zeros of [m], raising the exponent accordingly. *)
Fixpoint strip_zeros (fuel : nat) (m e : Z) : Z * Z :=
  match fuel with
  | O => (m, e)
  | S f => if (m mod 10 =? 0) && negb (m =? 0) then strip_zeros f (m / 10) (e + 1) else (m, e)
  end.

Definition normalize (m e : Z) : Z * Z := strip_zeros (List.length (digits (Z.abs m))) m e.

(** ** Rounding to the range of binary64 *)

(** The least magnitude that rounds to Infinity: [MAX_VALUE + ulp/2]. *)
Definition overflow_bound : Z := 2 ^ 1024 - 2 ^ 970.

(** [|m| * 10^e] compared with [a / b] ([a, b > 0]). *)
Definition cmp_scaled (m e a b : Z) : comparison :=
  if 0 <=? e then Z.compare (Z.abs m * 10 ^ e * b) a
  else Z.compare (Z.abs m * b) (a * 10 ^ (- e)).

(** The position of the leading digit: [10^(mag-1) <= |m * 10^e| < 10^mag]. *)
Definition mag (m e : Z) : Z := ndigits (Z.abs m) + e.

Definition signed_inf (m : Z) : num := if 0 <? m then PosInf else NegInf.

(** The rounding of an exact value, as the comparisons with the two
    thresholds define it. *)
Definition round_dec_ref (m e : Z) : num :=
  if m =? 0 then Fin 0 0
  else match cmp_scaled m e overflow_bound 1 with
       | Lt =>
           match cmp_scaled m e 1 (2 ^ 1075) with
           | Gt => Fin m e
           | _ => Fin 0 0
           end
       | _ => signed_inf m
       end.

(** The same rounding with a test on the number of digits first, so that
    a literal such as [1e1000000000] is classified without computing a
    power of ten of that size. *)
Definition round_dec (m e : Z) : num :=
  if m =? 0 then Fin 0 0
  else if 309 <? mag m e then signed_inf m
  else if mag m e <? -323 then Fin 0 0
  else round_dec_ref m e.

(** ** Arithmetic and comparison (ECMA-262 6.1.6.1) *)

Definition align (m1 e1 m2 e2 : Z) : Z * Z * Z :=
  let e := Z.min e1 e2 in (m1 * 10 ^ (e1 - e), m2 * 10 ^ (e2 - e), e).

Definition num_add (x y : num) : num :=
  match x, y with
  | NaN, _ | _, NaN => NaN
  | PosInf, NegInf | NegInf, PosInf => NaN
  | PosInf, _ | _, PosInf => PosInf
  | NegInf, _ | _, NegInf => NegInf
  | Fin m1 e1, Fin m2 e2 =>
      let '(a1, a2, e) := align m1 e1 m2 e2 in round_dec (a1 + a2) e
  end.

Definition num_sign (x : num) : Z :=
  match x with
  | NaN => 0
  | PosInf => 1
  | NegInf => -1
  | Fin m _ => Z.sgn m
  end.

Definition num_mul (x y : num) : num :=
  match x, y with
  | NaN, _ | _, NaN => NaN
  | Fin m1 e1, Fin m2 e2 => round_dec (m1 * m2) (e1 + e2)
  | _, _ =>
      let s := num_sign x * num_sign y in
      if s =? 0 then NaN else if 0 <? s then PosInf else NegInf
  end.

(** [None] is the [undefined] of IsLessThan: a comparison with NaN. *)
Definition num_compare (x y : num) : option comparison :=
  match x, y with
  | NaN, _ | _, NaN => None
  | PosInf, PosInf | NegInf, NegInf => Some Eq
  | PosInf, _ | _, NegInf => Some Gt
  | NegInf, _ | _, PosInf => Some Lt
  | Fin m1 e1, Fin m2 e2 =>
      let '(a1, a2, _) := align m1 e1 m2 e2 in Some (Z.compare a1 a2)
  end.

(** [x <= y] on numbers: false when either is NaN. *)
Definition num_le (x y : num) : bool :=
  match num_compare x y with
  | Some Lt | Some Eq => true
  | _ => false
  end.

(** ToBoolean on a number (7.1.2): NaN and zero are falsy. *)
Definition num_truthy (x : num) : bool :=
  match x with
  | NaN => false
  | Fin m _ => negb (m =? 0)
  | _ => true
  end.

Definition num_of_Z (n : Z) : num := round_dec n 0.

(** ** Number::toString (7.1.12.1 with radix 10) *)

Definition pos_to_string (m e : Z) : string :=
  let '(s, e') := normalize m e in
  let ds := digits s in
  let k := Z.of_nat (List.length ds) in
  let n := k + e' in
  if (k <=? n) && (n <=? 21) then
    string_of_digits ds ++ zeros (Z.to_nat (n - k))
  else if (0 <? n) && (n <=? 21) then
    string_of_digits (firstn (Z.to_nat n) ds) ++ "." ++ string_of_digits (skipn (Z.to_nat n) ds)
  else if (-6 <? n) && (n <=? 0) then
    "0." ++ zeros (Z.to_nat (- n)) ++ string_of_digits ds
  else
    let ex := (if n - 1 <? 0 then "-" else "+") ++ Z_to_dec (Z.abs (n - 1)) in
    if k =? 1 then string_of_digits ds ++ "e" ++ ex
    else string_of_digits (firstn 1 ds) ++ "." ++ string_of_digits (skipn 1 ds) ++ "e" ++ ex.

Definition num_to_string (x : num) : string :=
  match x with
  | NaN => "NaN"
  | PosInf => "Infinity"
  | NegInf => "-Infinity"
  | Fin m e =>
      if m =? 0 then "0"
      else (if m <? 0 then "-" else "") ++ pos_to_string (Z.abs m) e
  end.

(** ** Scanning strings *)

Definition char_is (c : ascii) (n : nat) : bool := Nat.eqb (nat_of_ascii c) n.

(** StrWhiteSpaceChar restricted to single-byte characters: tab, line
    feed, vertical tab, form feed, carriage return and space. *)
Definition is_ws (c : ascii) : bool :=
  char_is c 9 || char_is c 10 || char_is c 11 || char_is c 12 || char_is c 13 || char_is c 32.

Fixpoint trim_start (s : string) : string :=
  match s with
  | String c r => if is_ws c then trim_start r else s
  | EmptyString => EmptyString
  end.

Definition string_rev (s : string) : string :=
  string_of_list_ascii (rev (list_ascii_of_string s)).

(** [String.prototype.trim]'s whitespace removal on both ends. *)
Definition trim (s : string) : string := string_rev (trim_start (string_rev (trim_start s))).

(** The value of [c] as a digit of radix up to 36 ([0-9], [a-z], [A-Z]). *)
Definition digit_of (c : ascii) : option Z :=
  let n := Z.of_nat (nat_of_ascii c) in
  if (48 <=? n) && (n <=? 57) then Some (n - 48)
  else if (97 <=? n) && (n <=? 122) then Some (n - 87)
  else if (65 <=? n) && (n <=? 90) then Some (n - 55)
  else None.

Definition radix_digit (radix : Z) (c : ascii) : option Z :=
  match digit_of c with
  | Some d => if d <? radix then Some d else None
  | None => None
  end.

(** The longest prefix of digits of [radix], and the rest of the string. *)
Fixpoint span_digits (radix : Z) (s : string) : list Z * string :=
  match s with
  | String c r =>
      match radix_digit radix c with
      | Some d => let '(ds, rest) := span_digits radix r in (d :: ds, rest)
      | None => ([], s)
      end
  | EmptyString => ([], EmptyString)
  end.

(** An optional sign: [(-1, rest)] after ["-"], [(1, rest)] otherwise. *)
Definition take_sign (s : string) : Z * string :=
  match s with
  | String c r => if char_is c 45 then (-1, r) else if char_is c 43 then (1, r) else (1, s)
  | EmptyString => (1, s)
  end.

(** ** parseInt (19.2.5), with an undefined radix *)

Definition hex_prefix (s : string) : option string :=
  match s with
  | String c0 (String c1 r) => if char_is c0 48 && (char_is c1 120 || char_is c1 88) then Some r else None
  | _ => None
  end.

Definition parse_int (s : string) : num :=
  let '(sign, s2) := take_sign (trim_start s) in
  let '(radix, s3) := match hex_prefix s2 with Some r => (16, r) | None => (10, s2) end in
  match span_digits radix s3 with
  | ([], _) => NaN
  | (ds, _) => round_dec (sign * digits_val_radix radix ds) 0
  end.

(** ** StrDecimalLiteral (7.1.4.1) and parseFloat (19.2.4) *)

Definition is_exp_char (c : ascii) : bool := char_is c 101 || char_is c 69.

(** An ExponentPart, when one follows: its value and the rest. *)
Definition scan_exponent (s : string) : Z * string :=
  match s with
  | String c r =>
      if is_exp_char c then
        let '(sg, r2) := take_sign r in
        match span_digits 10 r2 with
        | ([], _) => (0, s)
        | (ds, r3) => (sg * digits_val ds, r3)
        end
      else (0, s)
  | EmptyString => (0, s)
  end.

Inductive scanned := SInf | SDec (m e : Z).

(** The longest prefix that is a StrUnsignedDecimalLiteral. *)
Definition scan_unsigned (s : string) : option (scanned * string) :=
  if prefix "Infinity" s then Some (SInf, substring 8 (String.length s - 8) s)
  else
    let '(ip, r1) := span_digits 10 s in
    let '(fp, r2) :=
      match r1 with
      | String c r => if char_is c 46 then span_digits 10 r else ([], r1)
      | EmptyString => ([], r1)
      end in
    match (ip ++ fp)%list with
    | [] => None
    | ds => let '(ex, r3) := scan_exponent r2 in
            Some (SDec (digits_val ds) (ex - Z.of_nat (List.length fp)), r3)
    end.

(** The longest prefix that is a StrDecimalLiteral, its value and the rest. *)
Definition scan_decimal (s : string) : option (num * string) :=
  let '(sg, r) := take_sign s in
  match scan_unsigned r with
  | Some (SInf, rest) => Some (if sg =? 1 then PosInf else NegInf, rest)
  | Some (SDec m e, rest) => Some (round_dec (sg * m) e, rest)
  | None => None
  end.

Definition parse_float (s : string) : num :=
  match scan_decimal (trim_start s) with
  | Some (x, _) => x
  | None => NaN
  end.

(** ** StringToNumber (7.1.4.1.1): [ToNumber] on a string *)

Definition non_decimal_prefix (s : string) : option (Z * string) :=
  match s with
  | String c0 (String c1 r) =>
      if char_is c0 48 then
        if char_is c1 120 || char_is c1 88 then Some (16, r)
        else if char_is c1 111 || char_is c1 79 then Some (8, r)
        else if char_is c1 98 || char_is c1 66 then Some (2, r)
        else None
      else None
  | _ => None
  end.

Definition string_to_number (s : string) : num :=
  let t := trim s in
  match t with
  | EmptyString => Fin 0 0
  | _ =>
      match non_decimal_prefix t with
      | Some (radix, r) =>
          match span_digits radix r with
          | (d :: ds, EmptyString) => round_dec (digits_val_radix radix (d :: ds)) 0
          | _ => NaN
          end
      | None =>
          match scan_decimal t with
          | Some (x, EmptyString) => x
          | _ => NaN
          end
      end
  end.

(** ** Number.prototype.toFixed (21.1.3.3) *)

(** The integer [n] nearest to [a * 10^e * 10^f], the larger one on a
    tie ([a >= 0]). *)
Definition round_half_up (a e f : Z) : Z :=
  if 0 <=? e + f then a * 10 ^ (e + f)
  else let d := 10 ^ (- (e + f)) in (2 * a + d) / (2 * d).

Definition to_fixed (f : nat) (x : num) : string :=
  match x with
  | Fin m e =>
      let s := if m <? 0 then "-" else "" in
      let a := Z.abs m in
      match cmp_scaled a e (10 ^ 21) 1 with
      | Lt =>
          let ds0 := digits (round_half_up a e (Z.of_nat f)) in
          let ds := if (List.length ds0 <=? f)%nat
                    then (repeat 0 (f + 1 - List.length ds0) ++ ds0)%list else ds0 in
          let k := List.length ds in
          if (f =? 0)%nat then s ++ string_of_digits ds
          else s ++ string_of_digits (firstn (k - f) ds) ++ "." ++ string_of_digits (skipn (k - f) ds)
      | _ => s ++ num_to_string (Fin a e)
      end
  | _ => num_to_string x
  end.

(** ** Amounts in cents *)

(** The number [c / 100]. *)
Definition cents (c : Z) : num := round_dec c (-2).

(** The decimal text of [c / 100] with two fraction digits ([c >= 0]). *)
Definition cents_to_string (c : Z) : string :=
  Z_to_dec (c / 100) ++ "." ++ string_of_digits [c / 10 mod 10; c mod 10].

(** ** Lemmas: digits *)

Lemma drf_fuel_irrel (f1 f2 : nat) (n : Z) :
  0 <= n -> n < 10 ^ Z.of_nat (S f1) -> n < 10 ^ Z.of_nat (S f2) ->
  digits_rev_fuel (S f1) n = digits_rev_fuel (S f2) n.
Proof.
  assert (H10 : 10 ^ Z.of_nat 1 = 10) by reflexivity.
  revert f2 n; induction f1 as [|f1 IH]; intros f2 n H0 H1 H2;
    cbn [digits_rev_fuel]; destruct (Z.ltb_spec n 10) as [Hn|Hn]; auto.
  - lia.
  - destruct f2 as [|f2]; [lia|].
    f_equal. apply IH.
    + apply Z.div_pos; lia.
    + apply Z.div_lt_upper_bound; [lia|]. rewrite Nat2Z.inj_succ, Z.pow_succ_r in H1 by lia. lia.
    + apply Z.div_lt_upper_bound; [lia|]. rewrite Nat2Z.inj_succ, Z.pow_succ_r in H2 by lia. lia.
Qed.

Lemma digits_fuel_enough (n : Z) : 0 <= n -> n < 10 ^ Z.of_nat (digits_fuel n).
Proof.
  intros Hn. unfold digits_fuel. rewrite Nat2Z.inj_succ, Z2Nat.id by apply Z.log2_nonneg.
  destruct (Z.eq_dec n 0) as [->|Hn0]; [reflexivity|].
  apply Z.lt_le_trans with (2 ^ Z.succ (Z.log2 n)).
  - apply Z.log2_spec; lia.
  - apply Z.pow_le_mono_l. pose proof (Z.log2_nonneg n); lia.
Qed.

Lemma digits_small (n : Z) : 0 <= n < 10 -> digits n = [n].
Proof.
  intros Hn. unfold digits. destruct (digits_fuel n) eqn:E; [unfold digits_fuel in E; lia|].
  simpl. rewrite (proj2 (Z.ltb_lt n 10)) by lia. reflexivity.
Qed.

Lemma digits_snoc (n : Z) : 10 <= n -> digits n = (digits (n / 10) ++ [n mod 10])%list.
Proof.
  intros Hn. unfold digits.
  pose proof (digits_fuel_enough n ltac:(lia)) as Hf.
  destruct (digits_fuel n) as [|f] eqn:E; [unfold digits_fuel in E; lia|].
  simpl. rewrite (proj2 (Z.ltb_ge n 10)) by lia. simpl. f_equal.
  destruct f as [|f]; [simpl in Hf; lia|].
  f_equal. apply drf_fuel_irrel.
  - apply Z.div_pos; lia.
  - apply Z.div_lt_upper_bound; [lia|]. rewrite Nat2Z.inj_succ, Z.pow_succ_r in Hf by lia. lia.
  - apply digits_fuel_enough, Z.div_pos; lia.
Qed.

(** Induction on the decimal digits of a non-negative integer. *)
Lemma digits_ind (P : Z -> Prop) :
  (forall n, 0 <= n < 10 -> P n) ->
  (forall n, 10 <= n -> P (n / 10) -> P n) ->
  forall n, 0 <= n -> P n.
Proof.
  intros Hbase Hstep n. induction n as [n IH] using (well_founded_induction (Zwf_well_founded 0)).
  intros Hn. destruct (Z.ltb_spec n 10).
  - apply Hbase; lia.
  - apply Hstep; [lia|]. apply IH; [|apply Z.div_pos; lia].
    unfold Zwf; split; [lia|apply Z.div_lt; lia].
Qed.

Lemma digits_val_radix_snoc (r : Z) (l : list Z) (d : Z) :
  digits_val_radix r (l ++ [d])%list = digits_val_radix r l * r + d.
Proof. unfold digits_val_radix. rewrite fold_left_app. reflexivity. Qed.

Lemma digits_val_digits (n : Z) : 0 <= n -> digits_val (digits n) = n.
Proof.
  revert n; apply digits_ind.
  - intros n Hn. rewrite digits_small by lia. reflexivity.
  - intros n Hn IH. rewrite digits_snoc by lia. unfold digits_val in *.
    rewrite digits_val_radix_snoc, IH. pose proof (Z.div_mod n 10). lia.
Qed.

Lemma digits_range (n : Z) : 0 <= n -> Forall (fun d => 0 <= d < 10) (digits n).
Proof.
  revert n; apply digits_ind.
  - intros n Hn. rewrite digits_small by lia. auto.
  - intros n Hn IH. rewrite digits_snoc by lia. apply Forall_app; split; auto.
    constructor; [apply Z.mod_pos_bound; lia|auto].
Qed.

Lemma digits_length_pos (n : Z) : 0 <= n -> (1 <= List.length (digits n))%nat.
Proof.
  revert n; apply digits_ind.
  - intros n Hn. rewrite digits_small by lia. simpl; lia.
  - intros n Hn IH. rewrite digits_snoc, length_app by lia. lia.
Qed.

(** The number of digits locates a positive integer between two powers of ten. *)
Lemma ndigits_bounds (n : Z) :
  0 < n -> 10 ^ (ndigits n - 1) <= n < 10 ^ ndigits n.
Proof.
  intros Hn. assert (H0 : 0 <= n) by lia. revert Hn.
  apply (digits_ind (fun n => 0 < n -> 10 ^ (ndigits n - 1) <= n < 10 ^ ndigits n)); auto;
    clear n H0; unfold ndigits.
  - intros n Hn Hpos. rewrite digits_small by lia. simpl. lia.
  - intros n Hn IH _. rewrite digits_snoc, length_app by lia. simpl List.length.
    specialize (IH ltac:(apply Z.div_str_pos; lia)).
    set (k := Z.of_nat (List.length (digits (n / 10)))) in *.
    assert (1 <= k) by (pose proof (digits_length_pos (n / 10) ltac:(apply Z.div_pos; lia)); lia).
    replace (Z.of_nat (List.length (digits (n / 10)) + 1)) with (k + 1) by lia.
    replace (k + 1 - 1) with (k - 1 + 1) by lia.
    rewrite !Z.pow_add_r by lia. simpl.
    pose proof (Z.div_mod n 10 ltac:(lia)). pose proof (Z.mod_pos_bound n 10 ltac:(lia)).
    replace (10 ^ 1) with 10 by reflexivity. lia.
Qed.

(** ** Lemmas: rounding *)

Lemma overflow_bound_lt : overflow_bound < 10 ^ 309.
Proof. vm_compute. reflexivity. Qed.

Lemma overflow_bound_gt : 10 ^ 308 < overflow_bound.
Proof. vm_compute. reflexivity. Qed.

Lemma pow2_1075_lt : 2 ^ 1075 < 10 ^ 324.
Proof. vm_compute. reflexivity. Qed.

Lemma pow2_1075_gt : 10 ^ 323 < 2 ^ 1075.
Proof. vm_compute. reflexivity. Qed.

Lemma pow10_add (a b : Z) : 0 <= a -> 0 <= b -> 10 ^ (a + b) = 10 ^ a * 10 ^ b.
Proof. intros; apply Z.pow_add_r; lia. Qed.

Lemma pow10_le (a b : Z) : 0 <= a <= b -> 10 ^ a <= 10 ^ b.
Proof. intros; apply Z.pow_le_mono_r; lia. Qed.

Lemma ndigits_pos (n : Z) : 0 <= n -> 1 <= ndigits n.
Proof. intros Hn. unfold ndigits. pose proof (digits_length_pos n Hn). lia. Qed.

(** The digit-count shortcut of [round_dec] does not change the result:
    it is the reference rounding. *)
Lemma round_dec_equiv (m e : Z) : round_dec m e = round_dec_ref m e.
Proof.
  unfold round_dec, mag.
  destruct (Z.eqb_spec m 0) as [->|Hm]; [reflexivity|].
  pose proof (ndigits_bounds (Z.abs m) ltac:(lia)) as [Hlo Hhi].
  pose proof (ndigits_pos (Z.abs m) ltac:(lia)) as Hd.
  set (d := ndigits (Z.abs m)) in *.
  pose proof overflow_bound_lt. pose proof pow2_1075_lt.
  unfold round_dec_ref, cmp_scaled. rewrite (proj2 (Z.eqb_neq m 0) Hm).
  destruct (Z.ltb_spec 309 (d + e)) as [Hov|Hov].
  - destruct (Z.leb_spec 0 e) as [He|He].
    + assert (10 ^ 309 <= Z.abs m * 10 ^ e * 1).
      { rewrite Z.mul_1_r. apply Z.le_trans with (10 ^ (d - 1) * 10 ^ e); [|nia].
        rewrite <- pow10_add by lia. apply pow10_le; lia. }
      destruct (Z.compare_spec (Z.abs m * 10 ^ e * 1) overflow_bound); auto; lia.
    + assert (10 ^ 309 * 10 ^ (- e) <= Z.abs m * 1).
      { rewrite Z.mul_1_r. apply Z.le_trans with (10 ^ (d - 1)); [|lia].
        rewrite <- pow10_add by lia. apply pow10_le; lia. }
      assert (0 < 10 ^ (- e)) by (apply Z.pow_pos_nonneg; lia).
      destruct (Z.compare_spec (Z.abs m * 1) (overflow_bound * 10 ^ (- e))); auto; nia.
  - destruct (Z.ltb_spec (d + e) (-323)) as [Hun|Hun]; [|reflexivity].
    rewrite (proj2 (Z.leb_gt 0 e)) by lia.
    assert (Hp : 10 ^ (- e) = 10 ^ d * 10 ^ (- e - d)) by (rewrite <- pow10_add; f_equal; lia).
    assert (10 ^ 324 <= 10 ^ (- e - d)) by (apply pow10_le; lia).
    assert (0 < 10 ^ d) by (apply Z.pow_pos_nonneg; lia).
    assert (Z.abs m * 1 < overflow_bound * 10 ^ (- e)).
    { rewrite Hp. pose proof overflow_bound_gt.
      assert (1 <= 10 ^ 308) by (vm_compute; discriminate). nia. }
    rewrite (proj2 (Z.compare_lt_iff _ _) H3).
    assert (Z.abs m * 2 ^ 1075 < 1 * 10 ^ (- e)) by (rewrite Hp; nia).
    rewrite (proj2 (Z.compare_lt_iff _ _) H4). reflexivity.
Qed.

(** A value between a hundredth and [10^300] in magnitude, with an
    exponent of at least [-2], is represented exactly. *)
Lemma round_dec_exact (m e : Z) :
  m <> 0 -> -2 <= e <= 0 -> Z.abs m < 10 ^ 300 -> round_dec m e = Fin m e.
Proof.
  intros Hm He Hb. rewrite round_dec_equiv. unfold round_dec_ref, cmp_scaled.
  rewrite (proj2 (Z.eqb_neq m 0) Hm). pose proof overflow_bound_gt.
  assert (10 ^ 300 * 10 ^ 8 = 10 ^ 308) by reflexivity.
  destruct (Z.leb_spec 0 e) as [He0|He0].
  - assert (e = 0) as -> by lia. rewrite !Z.mul_1_r.
    rewrite (proj2 (Z.compare_lt_iff _ _)) by lia.
    rewrite (proj2 (Z.compare_gt_iff _ _)); [reflexivity|].
    assert (0 < 2 ^ 1075) by reflexivity. nia.
  - assert (Hp : 10 ^ (- e) <= 100) by (apply Z.le_trans with (10 ^ 2); [apply pow10_le; lia|reflexivity]).
    assert (0 < 10 ^ (- e)) by (apply Z.pow_pos_nonneg; lia).
    rewrite (proj2 (Z.compare_lt_iff _ _)) by nia.
    rewrite (proj2 (Z.compare_gt_iff _ _)); [reflexivity|].
    pose proof pow2_1075_gt. assert (100 < 10 ^ 323) by reflexivity. nia.
Qed.

(** ** Lemmas: printing and parsing integers *)

Lemma string_of_digits_app (l1 l2 : list Z) :
  string_of_digits (l1 ++ l2)%list = string_of_digits l1 ++ string_of_digits l2.
Proof. induction l1 as [|d l1 IH]; simpl; [reflexivity|]. now rewrite IH. Qed.

Lemma string_of_digits_zeros (j : nat) : string_of_digits (repeat 0 j) = zeros j.
Proof. induction j as [|j IH]; simpl; [reflexivity|]. now rewrite IH. Qed.

Lemma digits_mul10 (s : Z) : 0 < s -> digits (s * 10) = (digits s ++ [0])%list.
Proof.
  intros Hs. rewrite digits_snoc by lia.
  rewrite Z.div_mul, Z.mod_mul by lia. reflexivity.
Qed.

(** What [strip_zeros] removes are trailing zero digits. *)
Lemma strip_zeros_spec (fuel : nat) (q e : Z) :
  0 < q ->
  let '(s, e') := strip_zeros fuel q e in
  exists j : nat, e' = e + Z.of_nat j /\ 0 < s /\ digits q = (digits s ++ repeat 0 j)%list.
Proof.
  revert q e; induction fuel as [|f IH]; intros q e Hq; simpl.
  - exists 0%nat. rewrite app_nil_r. split; [lia|auto].
  - destruct (Z.eqb_spec (q mod 10) 0) as [Hm|Hm]; destruct (Z.eqb_spec q 0); simpl; try lia.
    + assert (Hq' : 0 < q / 10).
      { apply Z.div_str_pos. pose proof (Z.div_mod q 10 ltac:(lia)).
        destruct (Z.ltb_spec q 10); [|lia]. rewrite Z.mod_small in Hm by lia. lia. }
      specialize (IH (q / 10) (e + 1) Hq').
      destruct (strip_zeros f (q / 10) (e + 1)) as [s e'].
      destruct IH as (j & -> & Hs & Hd). exists (S j).
      split; [lia|split; [exact Hs|]].
      pose proof (Z.div_mod q 10 ltac:(lia)) as Hdm.
      replace q with (q / 10 * 10) at 1 by lia. rewrite digits_mul10 by lia.
      rewrite Hd, <- app_assoc. f_equal. simpl. rewrite <- repeat_cons. reflexivity.
    + exists 0%nat. rewrite app_nil_r. split; [lia|auto].
Qed.

Lemma ndigits_lt (q k : Z) : 0 < q -> q < 10 ^ k -> ndigits q <= k.
Proof.
  intros Hq Hk. pose proof (ndigits_bounds q Hq) as [Hlo _].
  assert (0 <= k) by (destruct (Z.ltb_spec k 0); [rewrite Z.pow_neg_r in Hk by lia|]; lia).
  destruct (Z.leb_spec (ndigits q) k) as [|Hgt]; [auto|].
  assert (10 ^ k <= 10 ^ (ndigits q - 1)) by (apply pow10_le; pose proof (ndigits_pos q); lia).
  lia.
Qed.

(** The digits of a positive integer below [10^21], printed without an
    exponent. *)
Lemma pos_to_string_int (q : Z) : 0 < q < 10 ^ 21 -> pos_to_string q 0 = Z_to_dec q.
Proof.
  intros Hq. unfold pos_to_string, normalize.
  pose proof (strip_zeros_spec (List.length (digits (Z.abs q))) q 0 ltac:(lia)) as Hs.
  destruct (strip_zeros _ q 0) as [s e'].
  destruct Hs as (j & -> & Hs & Hd).
  pose proof (ndigits_lt q 21 ltac:(lia) ltac:(lia)) as Hnd. unfold ndigits in Hnd.
  rewrite Hd, length_app, repeat_length in Hnd.
  rewrite (proj2 (Z.leb_le _ _)) by lia. rewrite (proj2 (Z.leb_le _ _)) by lia. simpl.
  unfold Z_to_dec. rewrite Hd, string_of_digits_app, string_of_digits_zeros.
  assert (E : forall a b : Z, a + (0 + b) - a = b) by (intros; lia).
  rewrite E, Nat2Z.id. reflexivity.
Qed.

(** [Number::toString] of an integer below [10^21] is its decimal
    representation (no exponent notation). *)
Lemma num_to_string_int (q : Z) :
  0 < q < 10 ^ 21 -> num_to_string (Fin q 0) = Z_to_dec q.
Proof.
  intros Hq. unfold num_to_string.
  rewrite (proj2 (Z.eqb_neq q 0)), (proj2 (Z.ltb_ge q 0)) by lia.
  rewrite Z.abs_eq, pos_to_string_int by lia. apply append_empty_l.
Qed.

(** The same for a negative integer: a minus sign, then the digits. *)
Lemma num_to_string_neg_int (q : Z) :
  0 < q < 10 ^ 21 -> num_to_string (Fin (- q) 0) = "-" ++ Z_to_dec q.
Proof.
  intros Hq. unfold num_to_string.
  rewrite (proj2 (Z.eqb_neq (- q) 0)), (proj2 (Z.ltb_lt (- q) 0)) by lia.
  rewrite Z.abs_opp, Z.abs_eq, pos_to_string_int by lia. reflexivity.
Qed.

Lemma digit_of_char (d : Z) : 0 <= d < 10 -> digit_of (digit_char d) = Some d.
Proof.
  intros Hd. unfold digit_of, digit_char.
  rewrite nat_ascii_embedding by lia.
  rewrite Nat2Z.inj_add, Z2Nat.id by lia. change (Z.of_nat 48) with 48.
  rewrite (proj2 (Z.leb_le 48 (48 + d))), (proj2 (Z.leb_le (48 + d) 57)) by lia.
  simpl. f_equal. lia.
Qed.

Lemma char_is_digit (d : Z) (n : nat) :
  0 <= d < 10 -> (n < 48 \/ 57 < n)%nat -> char_is (digit_char d) n = false.
Proof.
  intros Hd Hn. unfold char_is, digit_char. rewrite nat_ascii_embedding by lia.
  apply Nat.eqb_neq. lia.
Qed.

Lemma span_digits_of_digits (ds : list Z) (rest : string) :
  Forall (fun d => 0 <= d < 10) ds ->
  (forall c r, rest = String c r -> radix_digit 10 c = None) ->
  span_digits 10 (string_of_digits ds ++ rest) = (ds, rest).
Proof.
  intros Hds Hrest. induction Hds as [|d ds Hd Hds IH];
    cbn [string_of_digits]; autorewrite with relay_simpl; cbn [span_digits].
  - destruct rest as [|c r]; [reflexivity|]. cbn [span_digits]. now rewrite (Hrest c r eq_refl).
  - assert (radix_digit 10 (digit_char d) = Some d) as ->.
    { unfold radix_digit. rewrite digit_of_char by exact Hd.
      now rewrite (proj2 (Z.ltb_lt d 10)) by lia. }
    now rewrite IH.
Qed.

(** The digits of [q] followed by text that does not continue a decimal
    integer. *)
Lemma span_digits_Z_to_dec (q : Z) (rest : string) :
  0 <= q -> (forall c r, rest = String c r -> radix_digit 10 c = None) ->
  span_digits 10 (Z_to_dec q ++ rest) = (digits q, rest).
Proof. intros Hq Hr. apply span_digits_of_digits; [apply digits_range; lia|exact Hr]. Qed.

Lemma hex_prefix_Z_to_dec (q : Z) (rest : string) :
  0 <= q -> (forall c r, rest = String c r -> char_is c 120 = false /\ char_is c 88 = false) ->
  hex_prefix (Z_to_dec q ++ rest) = None.
Proof.
  intros Hq Hr. pose proof (digits_range q Hq) as Hd. pose proof (digits_length_pos q Hq). unfold Z_to_dec.
  destruct (digits q) as [|d [|d' ds]]; [simpl in *; lia| |].
  - cbn [string_of_digits]. rewrite append_String_l, append_empty_l. destruct rest as [|c r]; [reflexivity|].
    destruct (Hr c r eq_refl) as [H1 H2]. cbn [hex_prefix]. rewrite H1, H2. cbn [orb]. now rewrite andb_false_r.
  - inversion Hd as [|? ? _ Hds]; inversion Hds; subst. cbn [string_of_digits]. rewrite !append_String_l.
    cbn [hex_prefix]. rewrite (char_is_digit d' 120), (char_is_digit d' 88) by lia.
    now rewrite andb_false_r.
Qed.

(** What [parseInt] does with the digits of [q] after the sign: the
    value, with the sign applied. *)
Lemma parse_int_digits (sg q : Z) (rest : string) :
  0 <= q -> (forall c r, rest = String c r -> radix_digit 10 c = None) ->
  match span_digits 10 (Z_to_dec q ++ rest) with
  | ([], _) => NaN
  | (ds, _) => round_dec (sg * digits_val_radix 10 ds) 0
  end = round_dec (sg * q) 0.
Proof.
  intros Hq Hr. rewrite span_digits_Z_to_dec by assumption.
  pose proof (digits_val_digits q Hq) as Hv. pose proof (digits_length_pos q Hq).
  unfold digits_val in Hv. destruct (digits q); [simpl in *; lia|]. now rewrite Hv.
Qed.

(** [parseInt] reads the decimal representation of an integer off the
    front of a string, up to the first character that cannot continue
    it. *)
Lemma parse_int_Z_to_dec_app (q : Z) (rest : string) :
  0 <= q ->
  (forall c r, rest = String c r -> radix_digit 10 c = None /\ char_is c 120 = false /\ char_is c 88 = false) ->
  parse_int (Z_to_dec q ++ rest) = num_of_Z q.
Proof.
  intros Hq Hrest. pose proof (digits_range q Hq) as Hr.
  unfold parse_int, num_of_Z.
  assert (Hne := digits_length_pos q Hq).
  destruct (digits q) as [|d ds] eqn:Ed; [simpl in Hne; lia|].
  inversion Hr as [|? ? Hd Hds]; subst.
  assert (E : Z_to_dec q ++ rest = String (digit_char d) (string_of_digits ds ++ rest)).
  { unfold Z_to_dec. rewrite Ed. apply append_String_l. }
  assert (Hws : is_ws (digit_char d) = false).
  { unfold is_ws. rewrite !char_is_digit by lia. reflexivity. }
  rewrite E. cbn [trim_start]. rewrite Hws. unfold take_sign. rewrite !char_is_digit by lia.
  rewrite <- E, hex_prefix_Z_to_dec by (try intros c r Hc; try apply (Hrest c r Hc); assumption).
  rewrite parse_int_digits by (try intros c r Hc; try apply (Hrest c r Hc); assumption). f_equal. lia.
Qed.

Lemma parse_int_Z_to_dec (q : Z) : 0 <= q -> parse_int (Z_to_dec q) = num_of_Z q.
Proof. intros Hq. rewrite <- (append_empty_r (Z_to_dec q)). apply parse_int_Z_to_dec_app; [exact Hq|discriminate]. Qed.

(** And the representation of a negative integer. *)
Lemma parse_int_neg_Z_to_dec (q : Z) : 0 <= q -> parse_int ("-" ++ Z_to_dec q) = num_of_Z (- q).
Proof.
  intros Hq. unfold parse_int, num_of_Z. rewrite append_String_l, append_empty_l.
  change (trim_start (String "-" (Z_to_dec q))) with (String "-" (Z_to_dec q)).
  change (take_sign (String "-" (Z_to_dec q))) with (-1, Z_to_dec q).
  cbv beta iota. rewrite <- (append_empty_r (Z_to_dec q)).
  rewrite hex_prefix_Z_to_dec by (easy || discriminate).
  rewrite parse_int_digits by (easy || discriminate). reflexivity.
Qed.

(** ** Lemmas: amounts in cents *)

Lemma cents_exact (c : Z) : c <> 0 -> Z.abs c < 10 ^ 300 -> cents c = Fin c (-2).
Proof. intros; apply round_dec_exact; lia. Qed.

Lemma cents_zero : cents 0 = Fin 0 0.
Proof. reflexivity. Qed.

Lemma round_dec_zero (e : Z) : round_dec 0 e = Fin 0 0.
Proof. reflexivity. Qed.

(** [cents c] is a finite number of exponent [-2], or zero. *)
Lemma cents_cases (c : Z) :
  Z.abs c < 10 ^ 300 -> (c = 0 /\ cents c = Fin 0 0) \/ (c <> 0 /\ cents c = Fin c (-2)).
Proof.
  intros Hc. destruct (Z.eq_dec c 0) as [->|Hne]; [left; split; reflexivity|].
  right; split; [exact Hne|apply cents_exact; lia].
Qed.

(** Adding two amounts in cents is exact. *)
Lemma num_add_cents (a b : Z) :
  Z.abs a < 10 ^ 300 -> Z.abs b < 10 ^ 300 -> num_add (cents a) (cents b) = cents (a + b).
Proof.
  intros Ha Hb.
  destruct (cents_cases a Ha) as [[-> ->]|[_ ->]], (cents_cases b Hb) as [[-> ->]|[_ ->]];
    cbn [num_add align]; simpl Z.min; rewrite ?Z.sub_diag, ?Z.pow_0_r;
    unfold cents; f_equal; lia.
Qed.

(** Multiplying an amount in cents by an integer is exact. *)
Lemma num_mul_cents_int (a q : Z) :
  Z.abs a < 10 ^ 300 -> num_mul (cents a) (Fin q 0) = cents (a * q).
Proof.
  intros Ha. destruct (cents_cases a Ha) as [[-> ->]|[_ ->]]; reflexivity.
Qed.

Lemma num_le_cents_zero (c : Z) :
  Z.abs c < 10 ^ 300 -> num_le (cents c) (Fin 0 0) = (c <=? 0).
Proof.
  intros Hc. destruct (cents_cases c Hc) as [[-> ->]|[_ ->]]; [reflexivity|].
  unfold num_le, num_compare, align. rewrite Z.mul_0_l.
  change (Z.min (-2) 0) with (-2). change (-2 - -2) with 0. rewrite Z.pow_0_r, Z.mul_1_r.
  destruct (Z.compare_spec c 0); symmetry; zbool.
Qed.

(** [toFixed(2)] prints an amount in cents with its two fraction digits. *)
Lemma to_fixed_cents (c : Z) :
  0 <= c < 10 ^ 23 -> to_fixed 2 (cents c) = cents_to_string c.
Proof.
  intros Hc. destruct (Z.eq_dec c 0) as [->|Hne]; [reflexivity|].
  assert (10 ^ 23 < 10 ^ 300) by reflexivity.
  rewrite cents_exact by lia.
  assert (Hcmp : cmp_scaled c (-2) (10 ^ 21) 1 = Lt).
  { unfold cmp_scaled. simpl (0 <=? -2). cbv iota. apply Z.compare_lt_iff.
    change (10 ^ 21 * 10 ^ (- -2)) with (10 ^ 23). lia. }
  assert (Hr : round_half_up c (-2) (Z.of_nat 2) = c).
  { unfold round_half_up. change (-2 + Z.of_nat 2) with 0. rewrite Z.pow_0_r.
    change (0 <=? 0) with true. cbv iota. lia. }
  unfold to_fixed, cents_to_string. rewrite (proj2 (Z.ltb_ge c 0)) by lia.
  rewrite Z.abs_eq by lia. rewrite Hcmp, Hr.
  destruct (Z.ltb_spec c 100) as [Hlt|Hge].
  - destruct (Z.ltb_spec c 10) as [Hlt'|Hge'].
    + rewrite digits_small by lia. rewrite Z.div_small, (Z.div_small c 10), (Z.mod_small c 10) by lia.
      reflexivity.
    + rewrite digits_snoc, (digits_small (c / 10)) by (try split; try apply Z.div_pos; try apply Z.div_lt_upper_bound; lia).
      rewrite (Z.div_small c 100), (Z.mod_small (c / 10) 10) by
        (try split; try apply Z.div_pos; try apply Z.div_lt_upper_bound; lia).
      reflexivity.
  - assert (Hd : digits c = (digits (c / 100) ++ [c / 10 mod 10; c mod 10])%list).
    { rewrite digits_snoc, (digits_snoc (c / 10)) by (try apply Z.div_le_lower_bound; lia).
      rewrite Z.div_div by lia. rewrite <- app_assoc. reflexivity. }
    rewrite Hd. set (l := digits (c / 100)). set (t := [c / 10 mod 10; c mod 10]).
    assert (Hlen : List.length (l ++ t)%list = (List.length l + 2)%nat) by (rewrite length_app; reflexivity).
    pose proof (digits_length_pos (c / 100) ltac:(apply Z.div_pos; lia)).
    rewrite Hlen, (proj2 (Nat.leb_gt _ _)) by (unfold l; lia).
    change (2 =? 0)%nat with false. cbv iota.
    replace (List.length (l ++ t)%list - 2)%nat with (List.length l) by (rewrite length_app; simpl; lia).
    rewrite take_app_length, drop_app_length. autorewrite with relay_simpl. reflexivity.
Qed.

End Number.
