(* ===== verification/JsValue.v ===== *)
(** * JavaScript values

    The values the handlers of [src/server.js] read from [req.body] (a
    JSON document parsed by [express.json()], line 12), from [req.params]
    and from the processors' responses, and the abstract operations of
    ECMA-262 the handlers apply to them: ToBoolean ([!x], [x || y]),
    ToString (template literals, [parseInt]'s argument, property keys),
    property reads [v.k] and destructuring [const { k } = v] (which throw
    a TypeError on [undefined] and [null]), the comparison [v <= 0] of
    line 368 and [JSON.stringify] of line 380.

    A value parsed from JSON has no functions: the only callable values a
    handler can meet are the methods of [Object.prototype], which appear
    in [Catalog] where the lookup [FLAVORS[key]] can return them.  The
    keys the handlers read from parsed values ([cart], [id], [quantity],
    [amount], [currency], [items], [paymentIntentId], [access_token],
    [error_description], [client_token], [client_secret], [status],
    [length]) are not names of inherited properties, so [get] reads own
    properties only, plus [length] and indices of arrays and strings.
    An object is the list of the members of its JSON text; as with
    [JSON.parse], a duplicate key has the value of its last member and the
    position of its first, for reads and for [JSON.stringify].

    Thrown values are [js_error] records: the [message] of an Error and
    the [response] ([status], [data]) and [request] fields that axios
    attaches to the errors of a failed request. *)

From S2P Require Import Prelude JsNumber.

Module Value.
Import Number.

Local Set Warnings "-register-all".

Inductive jsval :=
| JUndef
| JNull
| JBool (b : bool)
| JNum (n : num)
| JStr (s : string)
| JArr (l : list jsval)
| JObj (fields : list (string * jsval)).

(** A thrown error: [error.message], [error.response] as
    [(status, data)], and whether [error.request] is set. *)
Record js_error := mk_error {
  err_message : string;
  err_response : option (Z * jsval);
  err_request : bool
}.

Definition plain_error (msg : string) : js_error := mk_error msg None false.

(** The outcome of an expression that may throw. *)
Inductive res (A : Type) :=
| Val (a : A)
| Thrown (e : js_error).
Arguments Val {A} a.
Arguments Thrown {A} e.

Definition res_bind {A B} (r : res A) (k : A -> res B) : res B :=
  match r with
  | Val a => k a
  | Thrown e => Thrown e
  end.

Notation "'let?' x ':=' r 'in' k" := (res_bind r (fun x => k))
  (at level 10, x name, r at level 100, k at level 200) : relay_scope.
Open Scope relay_scope.

(** ** ToBoolean (7.1.2) *)

Definition truthy (v : jsval) : bool :=
  match v with
  | JUndef | JNull => false
  | JBool b => b
  | JNum n => num_truthy n
  | JStr s => negb (String.eqb s "")
  | JArr _ | JObj _ => true
  end.

(** [a || b]: [a] when it is truthy, [b] otherwise. *)
Definition js_or (a b : jsval) : jsval := if truthy a then a else b.

(** ** Own properties *)

(** An object is the list of members of the JSON text it was parsed
    from.  [JSON.parse] keeps the last value of a duplicate key, at the
    position of the key's first occurrence: the lookup takes the last
    member with the key, and [first_keys] gives the property order. *)
Fixpoint assoc {A} (k : string) (fields : list (string * A)) : option A :=
  match fields with
  | [] => None
  | (k', v) :: rest =>
      match assoc k rest with
      | Some v' => Some v'
      | None => if String.eqb k k' then Some v else None
      end
  end.

Fixpoint first_keys {A} (seen : list string) (fields : list (string * A)) : list string :=
  match fields with
  | [] => []
  | (k, _) :: rest =>
      if existsb (String.eqb k) seen then first_keys seen rest else k :: first_keys (k :: seen) rest
  end.

Definition has_own (k : string) (fields : list (string * jsval)) : bool :=
  match assoc k fields with Some _ => true | None => false end.

(** ** ToString (7.1.17) *)

Definition cannot_convert : js_error := plain_error "Cannot convert object to primitive value".

(** [Array.prototype.join] with separator [","]: [undefined] and [null]
    elements print as the empty string. *)
Fixpoint join_with (sep : string) (l : list string) : string :=
  match l with
  | [] => ""
  | [s] => s
  | s :: rest => s ++ sep ++ join_with sep rest
  end.

(** ToString, through ToPrimitive for objects: an array prints as the join
    of its elements; a plain object prints as ["[object Object]"] unless
    it has an own [toString] property, which JSON makes a non-callable
    data property, and then ToPrimitive finds no method and throws. *)
Fixpoint to_string (v : jsval) : res string :=
  match v with
  | JUndef => Val "undefined"
  | JNull => Val "null"
  | JBool b => Val (if b then "true" else "false")
  | JNum n => Val (num_to_string n)
  | JStr s => Val s
  | JArr l =>
      let fix elems (l : list jsval) : res (list string) :=
        match l with
        | [] => Val []
        | x :: rest =>
            let? s := match x with JUndef | JNull => Val "" | _ => to_string x end in
            let? ss := elems rest in Val (s :: ss)
        end in
      let? ss := elems l in Val (join_with "," ss)
  | JObj fields => if has_own "toString" fields then Thrown cannot_convert else Val "[object Object]"
  end.

(** ** ToNumber (7.1.4) after ToPrimitive with hint number *)

Definition to_number (v : jsval) : res num :=
  match v with
  | JUndef => Val NaN
  | JNull => Val (Fin 0 0)
  | JBool b => Val (if b then Fin 1 0 else Fin 0 0)
  | JNum n => Val n
  | JStr s => Val (string_to_number s)
  | JArr _ | JObj _ => let? s := to_string v in Val (string_to_number s)
  end.

(** [v <= 0] (13.10.1 with IsLessThan(0, v)): false when [v] converts
    to NaN. *)
Definition le_zero (v : jsval) : res bool :=
  let? n := to_number v in Val (num_le n (Fin 0 0)).

(** ** Property reads *)

Definition read_error (what k : string) : js_error :=
  plain_error ("Cannot read properties of " ++ what ++ " (reading '" ++ k ++ "')").

(** The canonical array index denoted by a property key, if any. *)
Definition index_of_key (k : string) : option nat :=
  match span_digits 10 k with
  | (ds, EmptyString) =>
      match ds with
      | [] => None
      | [0] => Some O
      | 0 :: _ => None
      | _ => Some (Z.to_nat (digits_val ds))
      end
  | _ => None
  end.

Definition string_char_at (s : string) (i : nat) : jsval :=
  match String.get i s with
  | Some c => JStr (String c EmptyString)
  | None => JUndef
  end.

(** [v[k]] for a property key [k] ([GetValue] on a property reference). *)
Definition get (v : jsval) (k : string) : res jsval :=
  match v with
  | JUndef => Thrown (read_error "undefined" k)
  | JNull => Thrown (read_error "null" k)
  | JObj fields => Val (match assoc k fields with Some x => x | None => JUndef end)
  | JArr l =>
      if String.eqb k "length" then Val (JNum (num_of_Z (Z.of_nat (List.length l))))
      else match index_of_key k with
           | Some i => Val (match nth_error l i with Some x => x | None => JUndef end)
           | None => Val JUndef
           end
  | JStr s =>
      if String.eqb k "length" then Val (JNum (num_of_Z (Z.of_nat (String.length s))))
      else match index_of_key k with
           | Some i => Val (string_char_at s i)
           | None => Val JUndef
           end
  | JBool _ | JNum _ => Val JUndef
  end.

(** [v?.k]: [undefined] when [v] is [undefined] or [null]. *)
Definition get_opt (v : jsval) (k : string) : res jsval :=
  match v with
  | JUndef | JNull => Val JUndef
  | _ => get v k
  end.

(** [const { k } = v] (RequireObjectCoercible, then a read). *)
Definition destructure (v : jsval) (vname k : string) : res jsval :=
  match v with
  | JUndef => Thrown (plain_error ("Cannot destructure property '" ++ k ++ "' of '" ++ vname ++ "' as it is undefined."))
  | JNull => Thrown (plain_error ("Cannot destructure property '" ++ k ++ "' of '" ++ vname ++ "' as it is null."))
  | _ => get v k
  end.

(** ** JSON.stringify (25.5.2) of a value without functions *)

Definition hex_digit (d : nat) : ascii :=
  if (d <? 10)%nat then ascii_of_nat (48 + d) else ascii_of_nat (87 + d).

(** QuoteJSONString on one byte. *)
Definition quote_char (c : ascii) : string :=
  let n := nat_of_ascii c in
  if (n =? 34)%nat then String "092"%char (String "034"%char EmptyString)
  else if (n =? 92)%nat then String "092"%char (String "092"%char EmptyString)
  else if (n =? 8)%nat then "\b"
  else if (n =? 12)%nat then "\f"
  else if (n =? 10)%nat then "\n"
  else if (n =? 13)%nat then "\r"
  else if (n =? 9)%nat then "\t"
  else if (n <? 32)%nat then
    String "\"%char (String "u"%char (String "0"%char (String "0"%char
      (String (hex_digit (n / 16)) (String (hex_digit (n mod 16)) EmptyString)))))
  else String c EmptyString.

Fixpoint quote_body (s : string) : string :=
  match s with
  | EmptyString => EmptyString
  | String c r => quote_char c ++ quote_body r
  end.

Definition quote (s : string) : string := String "034"%char (quote_body s ++ String "034"%char EmptyString).

(** [None] is the [undefined] that [JSON.stringify] returns for
    [undefined]; inside an object such a member is left out, inside an
    array it prints as [null]. *)
Fixpoint stringify (v : jsval) : option string :=
  match v with
  | JUndef => None
  | JNull => Some "null"
  | JBool b => Some (if b then "true" else "false")
  | JNum n => Some (match n with Fin _ _ => num_to_string n | _ => "null" end)
  | JStr s => Some (quote s)
  | JArr l =>
      let fix elems (l : list jsval) : list string :=
        match l with
        | [] => []
        | x :: rest => match stringify x with Some s => s | None => "null" end :: elems rest
        end in
      Some ("[" ++ join_with "," (elems l) ++ "]")
  | JObj fields =>
      let fix members (fs : list (string * jsval)) : list (string * option string) :=
        match fs with
        | [] => []
        | (k, x) :: rest => (k, stringify x) :: members rest
        end in
      let texts := members fields in
      let out := flat_map (fun k => match assoc k texts with
                                    | Some (Some s) => [quote k ++ ":" ++ s]
                                    | _ => []
                                    end) (first_keys [] fields) in
      Some ("{" ++ join_with "," out ++ "}")
  end.

End Value.
