(* ===== verification/Catalog.v ===== *)
(** * The flavor catalog

    [FLAVORS] (src/server.js, lines 20-33) and what the order handler
    reads from it: [FLAVORS[item.id]] (line 162), [flavor.name] (line 169)
    and [parseFloat(flavor.price?.replace('$', '') || '15.00')] (line 164).

    [FLAVORS] is an object literal, so its prototype is [Object.prototype]
    and a lookup by a key that is not one of its twelve own keys can still
    find something: the eleven methods of [Object.prototype] (functions,
    truthy, whose [name] is their own name, ["Object"] for [constructor])
    and the accessor [__proto__] (which returns [Object.prototype]
    itself).  [lookup] has one constructor for each case.

    The handler is written against the [Catalog] class: the class is the
    interface the order handler relies on, [CatalogWf] its law (every
    entry found has a price the handler reads as a positive amount in
    cents), and [FLAVORS] its instance. *)

From S2P Require Import Prelude JsNumber JsValue.

Module Catalog.
Import Number Value.

Record flavor := mk_flavor { flavor_name : string; flavor_price : string }.

(** What [FLAVORS[key]] evaluates to. *)
Inductive lookup :=
| Own (f : flavor)
| ProtoMethod (fname : string)
| ProtoObject
| Missing.

Class Catalog := { catalog_get : string -> lookup }.

Definition FLAVORS : list (string * flavor) := [
  ("granola", mk_flavor "Granola Cereal Fox-Nut" "$15.00");
  ("jamaican", mk_flavor "Jamaican Jungle Flame" "$15.00");
  ("cafe", mk_flavor "Café Con Crunch" "$15.00");
  ("zaatar", mk_flavor "Za'atar" "$15.00");
  ("pumpkin", mk_flavor "Candied Pumpkin" "$15.00");
  ("orange", mk_flavor "Orange Maple" "$15.00");
  ("pearlz", mk_flavor "Pearlz" "$15.00");
  ("tomatoeouy", mk_flavor "Tomatoe'ouy" "$15.00");
  ("evergreenglow", mk_flavor "Evergreen Glow" "$15.00");
  ("totallynutz", mk_flavor "Totally Nutz" "$15.00");
  ("barbecue", mk_flavor "Barbecue" "$15.00");
  ("bagel", mk_flavor "Everything Bagel" "$15.00")
].

(** The methods of [Object.prototype] with the [name] of each. *)
Definition object_prototype_methods : list (string * string) := [
  ("constructor", "Object");
  ("__defineGetter__", "__defineGetter__");
  ("__defineSetter__", "__defineSetter__");
  ("hasOwnProperty", "hasOwnProperty");
  ("__lookupGetter__", "__lookupGetter__");
  ("__lookupSetter__", "__lookupSetter__");
  ("isPrototypeOf", "isPrototypeOf");
  ("propertyIsEnumerable", "propertyIsEnumerable");
  ("toString", "toString");
  ("valueOf", "valueOf");
  ("toLocaleString", "toLocaleString")
].

Fixpoint find_key {A} (k : string) (l : list (string * A)) : option A :=
  match l with
  | [] => None
  | (k', a) :: rest => if String.eqb k k' then Some a else find_key k rest
  end.

(** [[Get]] on an ordinary object whose own properties are [own] and
    whose prototype is [Object.prototype]. *)
Definition object_literal_get (own : list (string * flavor)) (k : string) : lookup :=
  match find_key k own with
  | Some f => Own f
  | None =>
      match find_key k object_prototype_methods with
      | Some n => ProtoMethod n
      | None => if String.eqb k "__proto__" then ProtoObject else Missing
      end
  end.

#[export] Instance flavors_catalog : Catalog := { catalog_get := object_literal_get FLAVORS }.

(** [if (flavor)]: everything found is truthy. *)
Definition found (l : lookup) : bool := match l with Missing => false | _ => true end.

(** [flavor.name]. *)
Definition lookup_name (l : lookup) : jsval :=
  match l with
  | Own f => JStr (flavor_name f)
  | ProtoMethod n => JStr n
  | ProtoObject | Missing => JUndef
  end.

(** [flavor.price]: only the own entries have one. *)
Definition lookup_price (l : lookup) : jsval :=
  match l with
  | Own f => JStr (flavor_price f)
  | _ => JUndef
  end.

(** [s.replace(pat, rep)] with a string pattern: the first occurrence. *)
Fixpoint replace_first (pat rep s : string) : string :=
  if prefix pat s then rep ++ substring (String.length pat) (String.length s - String.length pat) s
  else match s with
       | EmptyString => EmptyString
       | String c r => String c (replace_first pat rep r)
       end.

(** [x?.replace('$', '')] on the price read from the catalog. *)
Definition strip_dollar (v : jsval) : jsval :=
  match v with
  | JUndef | JNull => JUndef
  | JStr s => JStr (replace_first "$" "" s)
  | _ => v
  end.

(** [parseFloat(flavor.price?.replace('$', '') || '15.00')]: the argument
    is always a string here, so ToString cannot throw. *)
Definition price_of (l : lookup) : num :=
  match js_or (strip_dollar (lookup_price l)) (JStr "15.00") with
  | JStr s => parse_float s
  | _ => NaN
  end.

(** The law of a catalog the order handler relies on: the price read
    from every entry found is the amount [catalog_unit] in cents, with
    [0 < catalog_unit < 10^6], a whole number of dollars.  Whole dollars
    keep the handler's binary64 arithmetic exact (the products and sums
    of integers below [2^53] are), so that the exact decimals of
    [JsNumber] compute what the program computes. *)
Class CatalogWf `{Catalog} := {
  catalog_unit : Z;
  catalog_unit_range : (0 < catalog_unit < 10 ^ 6)%Z;
  catalog_unit_dollars : (catalog_unit mod 100 = 0)%Z;
  catalog_price : forall k, found (catalog_get k) = true -> price_of (catalog_get k) = cents catalog_unit
}.

(** ** Lemmas *)

Lemma find_key_In {A} (k : string) (l : list (string * A)) (a : A) :
  find_key k l = Some a -> In (k, a) l.
Proof.
  induction l as [|[k' a'] l IH]; simpl; [discriminate|].
  destruct (String.eqb_spec k k') as [->|_]; [intros [= ->]; auto|auto].
Qed.

Lemma price_of_default (l : lookup) :
  (forall f, l = Own f -> flavor_price f = "$15.00") -> price_of l = cents 1500.
Proof.
  intros Hf. destruct l as [f| | |]; try reflexivity.
  unfold price_of, lookup_price. rewrite (Hf f eq_refl). reflexivity.
Qed.

Lemma flavors_prices : Forall (fun kf => flavor_price (snd kf) = "$15.00") FLAVORS.
Proof. repeat constructor. Qed.

(** Every entry of [FLAVORS], and everything else the lookup finds, is
    read as 15.00. *)
Lemma flavors_price_of (k : string) : price_of (catalog_get k) = cents 1500.
Proof.
  apply price_of_default. intros f. simpl. unfold object_literal_get.
  destruct (find_key k FLAVORS) as [f'|] eqn:E.
  - intros [= <-]. apply find_key_In in E.
    exact (proj1 (List.Forall_forall _ _) flavors_prices _ E).
  - destruct (find_key k object_prototype_methods); [discriminate|].
    destruct (String.eqb k "__proto__"); discriminate.
Qed.

(** The names of [Object.prototype] and [__proto__] are found in
    [FLAVORS] although they are not its keys. *)
Lemma flavors_proto_found (k : string) :
  In k ("__proto__" :: map fst object_prototype_methods) -> found (catalog_get k) = true.
Proof.
  cbn [map fst object_prototype_methods In].
  intros Hk. repeat (destruct Hk as [<-|Hk]; [reflexivity|]). contradiction.
Qed.

#[export] Instance flavors_wf : CatalogWf := {
  catalog_unit := 1500;
  catalog_unit_range := ltac:(split; [lia|reflexivity]);
  catalog_unit_dollars := eq_refl;
  catalog_price := fun k _ => flavors_price_of k
}.

End Catalog.
