(* ===== verification/Effects.v ===== *)
(** * Effects: outbound calls, exceptions and HTTP responses

    The handlers of [src/server.js] are [async] functions whose only
    effects are the outbound calls they [await] ([axios.post] to PayPal,
    [stripeClient.paymentIntents.create] and [.retrieve] to Stripe) and
    the exceptions they throw and catch.  A handler is modelled as a
    [relay] program: a finite interaction tree whose nodes are the calls
    and whose leaves are a returned value or a thrown [js_error].

    - [await c] performs the call [c]: a fulfilled promise gives its
      value (for axios, [response.data]; for Stripe, the payment intent);
      a rejected one throws its error at that point.
    - [try_catch m h] is [try { m } catch (error) { h(error) }].
    - [run step s m] runs [m] against a processor given as a state
      machine [step], and returns the outcome, the processor's final
      state and the list of calls made, in order.

    The processors themselves are not code of this repository: [run] is
    parametric in them, and the theorems about handlers hold for every
    processor. *)

From S2P Require Import Prelude JsNumber JsValue.

Module Relay.
Import Number Value.

(** An outbound call, with what the code passes to it. *)
Inductive call :=
| AxiosPost (url : string) (body : jsval) (headers : list (string * string))
| StripeCreate (key : string) (params : jsval)
| StripeRetrieve (key : string) (id : jsval).

(** How the promise of a call settles. *)
Inductive reply :=
| Fulfilled (v : jsval)
| Rejected (e : js_error).

Inductive relay (A : Type) :=
| Ret (a : A)
| Throw (e : js_error)
| Call (c : call) (k : reply -> relay A).
Arguments Ret {A} a.
Arguments Throw {A} e.
Arguments Call {A} c k.

Fixpoint bind {A B} (m : relay A) (f : A -> relay B) : relay B :=
  match m with
  | Ret a => f a
  | Throw e => Throw e
  | Call c k => Call c (fun r => bind (k r) f)
  end.

Notation "'let!' x ':=' m 'in' k" := (bind m (fun x => k))
  (at level 10, x name, m at level 100, k at level 200) : relay_scope.
Open Scope relay_scope.

Fixpoint try_catch {A} (m : relay A) (h : js_error -> relay A) : relay A :=
  match m with
  | Ret a => Ret a
  | Throw e => h e
  | Call c k => Call c (fun r => try_catch (k r) h)
  end.

(** A pure computation that may throw. *)
Definition lift {A} (r : res A) : relay A :=
  match r with
  | Val a => Ret a
  | Thrown e => Throw e
  end.

Definition await (c : call) : relay jsval :=
  Call c (fun r => match r with Fulfilled v => Ret v | Rejected e => Throw e end).

(** ** HTTP responses *)

(** [res.status(status).json(body)]; [res.json(body)] has status 200. *)
Record response := mk_response { status : Z; body : jsval }.

Definition json (b : jsval) : response := mk_response 200 b.

(** [{ error: e, message: m }], the error body most handlers send. *)
Definition error_body (e : string) (m : jsval) : jsval :=
  JObj [("error", JStr e); ("message", m)].

(** ** Running against a processor *)

Inductive outcome (A : Type) :=
| Done (a : A)
| Failed (e : js_error).
Arguments Done {A} a.
Arguments Failed {A} e.

Section Run.
Context {S : Type} (step : S -> call -> S * reply).

Fixpoint run {A} (m : relay A) (s : S) : outcome A * S * list call :=
  match m with
  | Ret a => (Done a, s, [])
  | Throw e => (Failed e, s, [])
  | Call c k =>
      let '(s', r) := step s c in
      let '(o, s'', tr) := run (k r) s' in
      (o, s'', c :: tr)
  end.
End Run.

(** A processor that answers the calls with a script of replies, in
    order, and rejects the calls past its end; the concrete processor of
    the examples. *)
Definition scripted (replies : list reply) (c : call) : list reply * reply :=
  match replies with
  | r :: rest => (rest, r)
  | [] => ([], Rejected (mk_error "Network Error" None true))
  end.

(** The calls a program can make, over all replies: [calls_in m c]
    holds when some run of [m] makes the call [c]. *)
Inductive calls_in {A} : relay A -> call -> Prop :=
| calls_here c k : calls_in (Call c k) c
| calls_later c k r c' : calls_in (k r) c' -> calls_in (Call c k) c'.

(** A program that makes no call at all. *)
Definition no_call {A} (m : relay A) : Prop := forall c, ~ calls_in m c.

(** ** Lemmas *)

Section RunLemmas.
Context {S : Type} (step : S -> call -> S * reply).

Definition trace_of {A} (r : outcome A * S * list call) : list call := snd r.

Lemma run_bind {A B} (m : relay A) (f : A -> relay B) (s : S) :
  run step (bind m f) s =
  match run step m s with
  | (Done a, s', tr) => let '(o, s'', tr') := run step (f a) s' in (o, s'', (tr ++ tr')%list)
  | (Failed e, s', tr) => (Failed e, s', tr)
  end.
Proof.
  revert s; induction m as [a|e|c k IH]; intros s; simpl.
  - destruct (run step (f a) s) as [[o s''] tr']; reflexivity.
  - reflexivity.
  - destruct (step s c) as [s1 r]. rewrite IH.
    destruct (run step (k r) s1) as [[[a|e] s2] tr]; simpl; [|reflexivity].
    destruct (run step (f a) s2) as [[o s3] tr']; reflexivity.
Qed.

Lemma run_try_catch {A} (m : relay A) (h : js_error -> relay A) (s : S) :
  run step (try_catch m h) s =
  match run step m s with
  | (Done a, s', tr) => (Done a, s', tr)
  | (Failed e, s', tr) => let '(o, s'', tr') := run step (h e) s' in (o, s'', (tr ++ tr')%list)
  end.
Proof.
  revert s; induction m as [a|e|c k IH]; intros s; simpl.
  - reflexivity.
  - destruct (run step (h e) s) as [[o s''] tr']; reflexivity.
  - destruct (step s c) as [s1 r]. rewrite IH.
    destruct (run step (k r) s1) as [[[a|e] s2] tr]; simpl; [reflexivity|].
    destruct (run step (h e) s2) as [[o s3] tr']; reflexivity.
Qed.

Lemma run_lift {A} (r : res A) (s : S) :
  run step (lift r) s = (match r with Val a => Done a | Thrown e => Failed e end, s, []).
Proof. destruct r; reflexivity. Qed.

Lemma run_await (c : call) (s : S) :
  run step (await c) s =
  let '(s', r) := step s c in
  (match r with Fulfilled v => Done v | Rejected e => Failed e end, s', [c]).
Proof. simpl. destruct (step s c) as [s' [v|e]]; reflexivity. Qed.

(** A handler whose [catch] only builds a response adds no call. *)
Lemma run_try_catch_ret {A} (m : relay A) (h : js_error -> A) (s : S) :
  run step (try_catch m (fun e => Ret (h e))) s =
  match run step m s with
  | (Done a, s', tr) => (Done a, s', tr)
  | (Failed e, s', tr) => (Done (h e), s', tr)
  end.
Proof.
  rewrite run_try_catch. destruct (run step m s) as [[[a|e] s'] tr]; simpl; [reflexivity|].
  rewrite app_nil_r. reflexivity.
Qed.
End RunLemmas.

Lemma no_call_Ret {A} (a : A) : no_call (Ret a).
Proof. intros c Hc. inversion Hc. Qed.

Lemma no_call_Throw {A} (e : js_error) : no_call (@Throw A e).
Proof. intros c Hc. inversion Hc. Qed.

(** A program with no call runs without touching the processor. *)
Lemma run_no_call {A S} (step : S -> call -> S * reply) (m : relay A) (s : S) :
  no_call m -> trace_of (run step m s) = [] /\ snd (fst (run step m s)) = s.
Proof.
  intros Hm. destruct m as [a|e|c k]; [split; reflexivity|split; reflexivity|].
  exfalso. apply (Hm c). constructor.
Qed.

#[export] Hint Resolve no_call_Ret no_call_Throw : relay.
#[export] Hint Rewrite @run_bind @run_try_catch @run_lift @run_await : relay_simpl.

End Relay.
