(* ===== verification/Base64.v ===== *)
(** * Base64, as [getPayPalAccessToken] uses it

    [Buffer.from(`${PAYPAL_CLIENT_ID}:${PAYPAL_SECRET}`).toString('base64')]
    (src/server.js, line 46) encodes the client credentials for the
    [Authorization: Basic] header of the OAuth request.  [encode] is the
    standard base64 encoding (RFC 4648, section 4, with padding) of a byte
    list, written with the shifts and masks of the usual implementation;
    [Buffer.from] of a Rocq string is its list of bytes.  [decode] is the
    reference decoder the processor applies; the round trip
    [decode (encode bs) = Some bs] says that the header carries exactly
    the credentials. *)

From S2P Require Import Prelude.

Module Base64.
Open Scope Z_scope.

Definition alphabet : string :=
  "ABCDEFGHIJKLMNOPQRSTUVWXYZabcdefghijklmnopqrstuvwxyz0123456789+/".

Definition pad_char : ascii := "="%char.

(** The character of a sextet [0 <= n < 64]. *)
Definition enc_char (n : Z) : ascii :=
  match String.get (Z.to_nat n) alphabet with Some c => c | None => pad_char end.

Definition sextet (n : Z) (shift : Z) : ascii := enc_char (Z.land (Z.shiftr n shift) 63).

Definition chars (l : list ascii) : string := string_of_list_ascii l.

Fixpoint encode (bs : list Z) : string :=
  match bs with
  | a :: b :: c :: rest =>
      let n := Z.lor (Z.lor (Z.shiftl a 16) (Z.shiftl b 8)) c in
      chars [sextet n 18; sextet n 12; sextet n 6; sextet n 0] ++ encode rest
  | [a; b] =>
      let n := Z.lor (Z.shiftl a 16) (Z.shiftl b 8) in
      chars [sextet n 18; sextet n 12; sextet n 6; pad_char]
  | [a] =>
      let n := Z.shiftl a 16 in
      chars [sextet n 18; sextet n 12; pad_char; pad_char]
  | [] => EmptyString
  end.

Definition bytes_of_string (s : string) : list Z :=
  map (fun c => Z.of_nat (nat_of_ascii c)) (list_ascii_of_string s).

(** [Buffer.from(s).toString('base64')]. *)
Definition buffer_base64 (s : string) : string := encode (bytes_of_string s).

(** ** The reference decoder *)

Fixpoint index_of (c : ascii) (s : string) (i : Z) : option Z :=
  match s with
  | EmptyString => None
  | String c' r => if Ascii.eqb c c' then Some i else index_of c r (i + 1)
  end.

Definition dec_char (c : ascii) : option Z := index_of c alphabet 0.

Fixpoint decode_chars (l : list ascii) : option (list Z) :=
  match l with
  | [c1; c2; c3; c4] =>
      if Ascii.eqb c3 pad_char && Ascii.eqb c4 pad_char then
        match dec_char c1, dec_char c2 with
        | Some s1, Some s2 => Some [(s1 * 64 + s2) / 16]
        | _, _ => None
        end
      else if Ascii.eqb c4 pad_char then
        match dec_char c1, dec_char c2, dec_char c3 with
        | Some s1, Some s2, Some s3 =>
            let n := (s1 * 64 + s2) * 64 + s3 in Some [n / 1024; (n / 4) mod 256]
        | _, _, _ => None
        end
      else
        match dec_char c1, dec_char c2, dec_char c3, dec_char c4 with
        | Some s1, Some s2, Some s3, Some s4 =>
            let n := ((s1 * 64 + s2) * 64 + s3) * 64 + s4 in
            Some [n / 65536; (n / 256) mod 256; n mod 256]
        | _, _, _, _ => None
        end
  | c1 :: c2 :: c3 :: c4 :: rest =>
      match dec_char c1, dec_char c2, dec_char c3, dec_char c4, decode_chars rest with
      | Some s1, Some s2, Some s3, Some s4, Some bs =>
          let n := ((s1 * 64 + s2) * 64 + s3) * 64 + s4 in
          Some ([n / 65536; (n / 256) mod 256; n mod 256] ++ bs)%list
      | _, _, _, _, _ => None
      end
  | [] => Some []
  | _ => None
  end.

Definition decode (s : string) : option (list Z) := decode_chars (list_ascii_of_string s).

(** A byte: an integer in [0, 256). *)
Definition is_byte (b : Z) : Prop := 0 <= b < 256.

(** ** Lemmas *)

(** Every sextet has its own character, which is not the padding. *)
Lemma enc_dec_table :
  Forall (fun n => dec_char (enc_char n) = Some n /\ Ascii.eqb (enc_char n) pad_char = false)
         (map Z.of_nat (seq 0 64)).
Proof. vm_compute. repeat constructor. Qed.

Lemma dec_enc_char (n : Z) :
  0 <= n < 64 -> dec_char (enc_char n) = Some n /\ Ascii.eqb (enc_char n) pad_char = false.
Proof.
  intros Hn. apply (proj1 (List.Forall_forall _ _) enc_dec_table).
  apply in_map_iff. exists (Z.to_nat n). split; [lia|]. apply in_seq. lia.
Qed.

(** Or-ing a value below [2^k] into a multiple of [2^k] adds it. *)
Lemma lor_low_add (x y k : Z) : 0 <= k -> 0 <= y < 2 ^ k -> Z.lor (x * 2 ^ k) y = x * 2 ^ k + y.
Proof.
  intros Hk Hy.
  assert (Hland : Z.land (x * 2 ^ k) y = 0).
  { apply Z.bits_inj'. intros i Hi. rewrite Z.land_spec, Z.bits_0.
    destruct (Z.ltb_spec i k).
    - rewrite Z.mul_pow2_bits_low by lia. reflexivity.
    - destruct (Z.eq_dec y 0) as [->|Hy0]; [rewrite Z.bits_0; apply andb_false_r|].
      rewrite (Z.bits_above_log2 y i); [apply andb_false_r|lia|].
      apply Z.lt_le_trans with k; [apply Z.log2_lt_pow2; lia|lia]. }
  pose proof (Z.add_lor_land (x * 2 ^ k) y). lia.
Qed.

Lemma sextet_spec (n sh : Z) : 0 <= sh -> sextet n sh = enc_char ((n / 2 ^ sh) mod 64).
Proof.
  intros Hsh. unfold sextet. rewrite Z.shiftr_div_pow2 by lia.
  change 63 with (Z.ones 6). rewrite Z.land_ones by lia. reflexivity.
Qed.

Lemma list_ascii_chars_app (l : list ascii) (s : string) :
  list_ascii_of_string (chars l ++ s) = (l ++ list_ascii_of_string s)%list.
Proof.
  induction l as [|c l IH]; [reflexivity|]. unfold chars in *. cbn [string_of_list_ascii].
  rewrite append_String_l. cbn [list_ascii_of_string]. now rewrite IH.
Qed.

Ltac sextets :=
  repeat match goal with
  | |- context [dec_char (enc_char ?x)] =>
      let H := fresh in
      assert (H : 0 <= x < 64) by (apply Z.mod_pos_bound; lia) ||
                                  (split; [apply Z.div_pos; lia|apply Z.div_lt_upper_bound; lia]);
      let E := fresh in destruct (dec_enc_char x H) as [E _]; rewrite E; clear E
  | |- context [Ascii.eqb (enc_char ?x) pad_char] =>
      let H := fresh in
      assert (H : 0 <= x < 64) by (apply Z.mod_pos_bound; lia) ||
                                  (split; [apply Z.div_pos; lia|apply Z.div_lt_upper_bound; lia]);
      let E := fresh in destruct (dec_enc_char x H) as [_ E]; rewrite E; clear E
  end.

(** A full group followed by more text. *)
Lemma decode_chars_group (c1 c2 c3 c4 x : ascii) (l : list ascii) :
  decode_chars (c1 :: c2 :: c3 :: c4 :: x :: l) =
  match dec_char c1, dec_char c2, dec_char c3, dec_char c4, decode_chars (x :: l) with
  | Some s1, Some s2, Some s3, Some s4, Some bs =>
      let n := ((s1 * 64 + s2) * 64 + s3) * 64 + s4 in
      Some ([n / 65536; (n / 256) mod 256; n mod 256] ++ bs)%list
  | _, _, _, _, _ => None
  end.
Proof. reflexivity. Qed.

(** Decoding the base64 text of a byte list gives the byte list back. *)
Theorem decode_encode (bs : list Z) : Forall is_byte bs -> decode (encode bs) = Some bs.
Proof.
  unfold decode. intros Hbs. remember (List.length bs) as len eqn:Hlen.
  revert bs Hlen Hbs. induction len as [len IH] using lt_wf_ind. intros bs Hlen Hbs.
  destruct bs as [|a [|b [|c rest]]].
  - reflexivity.
  - inversion Hbs as [|? ? Ha]; subst. unfold is_byte in *. cbn [encode].
    rewrite Z.shiftl_mul_pow2 by lia.
    unfold chars. rewrite list_ascii_of_string_of_list_ascii. cbn [decode_chars].
    rewrite !sextet_spec, Ascii.eqb_refl by lia. cbn [andb].
    change (2 ^ 16) with 65536 in *; change (2 ^ 18) with 262144 in *; change (2 ^ 12) with 4096 in *.
    sextets. do 2 f_equal. zdiv.
  - inversion Hbs as [|? ? Ha Hb']; subst. inversion Hb' as [|? ? Hb]; subst.
    unfold is_byte in *. cbn [encode].
    rewrite !Z.shiftl_mul_pow2 by lia.
    rewrite (lor_low_add a (b * 2 ^ 8) 16) by (try split; simpl; lia).
    unfold chars. rewrite list_ascii_of_string_of_list_ascii. cbn [decode_chars].
    rewrite !sextet_spec, Ascii.eqb_refl by lia.
    change (2 ^ 16) with 65536 in *; change (2 ^ 18) with 262144 in *; change (2 ^ 12) with 4096 in *;
    change (2 ^ 8) with 256 in *; change (2 ^ 6) with 64 in *.
    sextets. cbn [andb]. sextets. do 2 f_equal; [|f_equal]; zdiv.
  - inversion Hbs as [|? ? Ha Hb']; subst. inversion Hb' as [|? ? Hb Hc']; subst.
    inversion Hc' as [|? ? Hc Hrest]; subst. unfold is_byte in *. cbn [encode].
    rewrite !Z.shiftl_mul_pow2 by lia.
    rewrite (lor_low_add a (b * 2 ^ 8) 16) by (try split; simpl; lia).
    replace (a * 2 ^ 16 + b * 2 ^ 8) with ((a * 2 ^ 8 + b) * 2 ^ 8) by (simpl; lia).
    rewrite (lor_low_add _ c 8) by (try split; simpl; lia).
    rewrite list_ascii_chars_app, !sextet_spec by lia.
    specialize (IH (List.length rest) ltac:(simpl; lia) rest eq_refl Hrest).
    change (2 ^ 8) with 256 in *; change (2 ^ 18) with 262144 in *; change (2 ^ 12) with 4096 in *;
    change (2 ^ 6) with 64 in *; change (2 ^ 0) with 1 in *.
    destruct (list_ascii_of_string (encode rest)) as [|x l] eqn:Erest.
    + cbn [decode_chars] in IH. injection IH as <-. rewrite app_nil_r. cbn [decode_chars].
      sextets. cbn [andb]. sextets. do 2 f_equal; [|f_equal; [|f_equal]]; zdiv.
    + cbn [app]. rewrite decode_chars_group, IH. sextets.
      cbn [app]. do 2 f_equal; [|f_equal; [|f_equal]]; zdiv.
Qed.


(** The [Authorization: Basic] value decodes to the bytes of the text
    that was encoded. *)
Corollary decode_buffer_base64 (s : string) : decode (buffer_base64 s) = Some (bytes_of_string s).
Proof.
  apply decode_encode. unfold bytes_of_string. apply List.Forall_forall.
  intros b Hb. apply in_map_iff in Hb as (c & <- & _).
  pose proof (nat_ascii_bounded c). unfold is_byte. lia.
Qed.


End Base64.
