(* ===== verification/PayPal.v ===== *)
(** * PayPal configuration and credential exchange

    The configuration read from the environment at start-up
    (src/server.js, lines 15-17 and 36) and the two helpers every PayPal
    endpoint goes through: [getPayPalAccessToken] (lines 40-78), the
    OAuth client-credential exchange, and [generatePayPalClientToken]
    (lines 81-99).

    [process.env] is a parameter ([env]); [process.env.X || d] is
    [env_or], and [PAYPAL_SECRET], which has no default, stays an
    [option]: [None] is [undefined].  [!PAYPAL_SECRET] is
    [secret_missing], true also for the empty string. *)

From S2P Require Import Prelude JsNumber JsValue Effects Base64.

Module PayPal.
Import Number Value Relay.

Definition env := list (string * string).

Fixpoint env_get (e : env) (k : string) : option string :=
  match e with
  | [] => None
  | (k', v) :: rest => if String.eqb k k' then Some v else env_get rest k
  end.

(** [process.env.K || d]: the default replaces an unset or empty value. *)
Definition env_or (e : env) (k d : string) : string :=
  match env_get e k with
  | Some v => if String.eqb v "" then d else v
  | None => d
  end.

Record config := mk_config {
  PAYPAL_CLIENT_ID : string;
  PAYPAL_SECRET : option string;
  PAYPAL_BASE_URL : string;
  STRIPE_SECRET_KEY : string
}.

Definition config_of_env (e : env) : config := {|
  PAYPAL_CLIENT_ID := env_or e "PAYPAL_CLIENT_ID"
    "AXAzi9txkuDcg3jPwu8ooaMCG0PWjAy01RAq9_BPznGD4hIdLTqbUJC1djj95cb8m8OVFmTymJaIqc73";
  PAYPAL_SECRET := env_get e "PAYPAL_SECRET";
  PAYPAL_BASE_URL := env_or e "PAYPAL_BASE_URL" "https://api-m.sandbox.paypal.com";
  STRIPE_SECRET_KEY := env_or e "STRIPE_SECRET_KEY" "YOUR_STRIPE_SECRET_KEY"
|}.

(** The configuration of the examples: a secret is set. *)
Definition example_cfg : config :=
  mk_config "client-id" (Some "client-secret") "https://api-m.sandbox.paypal.com" "sk_test".

(** [!PAYPAL_SECRET] *)
Definition secret_missing (cfg : config) : bool :=
  match PAYPAL_SECRET cfg with
  | None => true
  | Some s => String.eqb s ""
  end.

(** [`${PAYPAL_SECRET}`] *)
Definition secret_text (cfg : config) : string :=
  match PAYPAL_SECRET cfg with Some s => s | None => "undefined" end.

(** ** getPayPalAccessToken *)

Definition token_url (cfg : config) : string := PAYPAL_BASE_URL cfg ++ "/v1/oauth2/token".

(** [Basic ${auth}] with [auth] the base64 of [id:secret] (line 46). *)
Definition basic_auth (cfg : config) : string :=
  "Basic " ++ Base64.buffer_base64 (PAYPAL_CLIENT_ID cfg ++ ":" ++ secret_text cfg).

Definition token_request (cfg : config) : call :=
  AxiosPost (token_url cfg) (JStr "grant_type=client_credentials")
    [("Authorization", basic_auth cfg); ("Content-Type", "application/x-www-form-urlencoded")].

Definition secret_not_set_message : string := "PAYPAL_SECRET is not set in environment variables".
Definition no_token_message : string := "No access token in PayPal response".
Definition token_failure_prefix : string := "Failed to get PayPal access token: ".

(** [error.response?.data?.error_description] *)
Definition error_description (error : js_error) : res jsval :=
  match err_response error with
  | Some (_, data) => get_opt data "error_description"
  | None => Val JUndef
  end.

Definition getPayPalAccessToken (cfg : config) : relay jsval :=
  try_catch
    (if secret_missing cfg then Throw (plain_error secret_not_set_message)
     else
       let! data := await (token_request cfg) in
       let! tok := lift (get data "access_token") in
       if negb (truthy tok) then Throw (plain_error no_token_message)
       else lift (get data "access_token"))
    (fun error =>
       let! d := lift (error_description error) in
       let! s := lift (to_string (js_or d (JStr (err_message error)))) in
       Throw (plain_error (token_failure_prefix ++ s))).

(** ** generatePayPalClientToken *)

Definition client_token_url (cfg : config) : string :=
  PAYPAL_BASE_URL cfg ++ "/v1/identity/generate-token".

(** The headers of every token-dependent call: [Bearer ${accessToken}]. *)
Definition bearer_headers (token : string) : list (string * string) :=
  [("Authorization", "Bearer " ++ token); ("Content-Type", "application/json")].

Definition client_token_failure : string := "Failed to generate PayPal client token".

Definition generatePayPalClientToken (cfg : config) (accessToken : jsval) : relay jsval :=
  try_catch
    (let! t := lift (to_string accessToken) in
     let! data := await (AxiosPost (client_token_url cfg) (JObj []) (bearer_headers t)) in
     lift (get data "client_token"))
    (fun _ => Throw (plain_error client_token_failure)).

(** ** Lemmas *)

(** Without a secret, the exchange fails before any call. *)
Lemma getPayPalAccessToken_missing (cfg : config) :
  secret_missing cfg = true ->
  getPayPalAccessToken cfg = Throw (plain_error (token_failure_prefix ++ secret_not_set_message)).
Proof. intros Hs. unfold getPayPalAccessToken. now rewrite Hs. Qed.

Section Run.
Context {S : Type} (step : S -> call -> S * reply) (cfg : config).
Hypothesis Hsecret : secret_missing cfg = false.

(** The exchange is one call; a response whose [access_token] is truthy
    gives that token. *)
Lemma run_getPayPalAccessToken_ok (s s1 : S) (data tok : jsval) :
  step s (token_request cfg) = (s1, Fulfilled data) ->
  get data "access_token" = Val tok -> truthy tok = true ->
  run step (getPayPalAccessToken cfg) s = (Done tok, s1, [token_request cfg]).
Proof.
  intros Hstep Hget Ht. unfold getPayPalAccessToken. rewrite Hsecret.
  rewrite run_try_catch, run_bind, run_await, Hstep. cbn [run lift]. rewrite Hget.
  cbn [run bind lift]. rewrite Ht. reflexivity.
Qed.

(** The client-token call, given a usable access token. *)
Lemma run_generatePayPalClientToken_ok (s s1 : S) (tok data ct : jsval) (t : string) :
  to_string tok = Val t ->
  step s (AxiosPost (client_token_url cfg) (JObj []) (bearer_headers t)) = (s1, Fulfilled data) ->
  get data "client_token" = Val ct ->
  run step (generatePayPalClientToken cfg tok) s =
  (Done ct, s1, [AxiosPost (client_token_url cfg) (JObj []) (bearer_headers t)]).
Proof.
  intros H1 H2 H3. unfold generatePayPalClientToken.
  rewrite run_try_catch, run_bind, run_lift, H1. cbn [run bind lift].
  rewrite run_bind, run_await, H2. cbn [run bind lift]. rewrite run_lift, H3. reflexivity.
Qed.

End Run.

(** ** Properties *)

(** C20. The token exchange authenticates with the configured client id
    and secret: the request goes to [/v1/oauth2/token] with the
    client-credentials grant, and its [Authorization] header is [Basic]
    followed by a base64 text that decodes to the bytes of
    [PAYPAL_CLIENT_ID:PAYPAL_SECRET]. *)
Theorem token_request_credentials (cfg : config) (sec : string) :
  PAYPAL_SECRET cfg = Some sec ->
  exists enc,
    token_request cfg =
      AxiosPost (PAYPAL_BASE_URL cfg ++ "/v1/oauth2/token") (JStr "grant_type=client_credentials")
        [("Authorization", "Basic " ++ enc); ("Content-Type", "application/x-www-form-urlencoded")] /\
    Base64.decode enc = Some (Base64.bytes_of_string (PAYPAL_CLIENT_ID cfg ++ ":" ++ sec)).
Proof.
  intros Hs. exists (Base64.buffer_base64 (PAYPAL_CLIENT_ID cfg ++ ":" ++ sec)). split.
  - unfold token_request, basic_auth, secret_text. now rewrite Hs.
  - apply Base64.decode_buffer_base64.
Qed.

Lemma token_request_credentials_witness :
  exists enc,
    token_request example_cfg =
      AxiosPost ("https://api-m.sandbox.paypal.com" ++ "/v1/oauth2/token") (JStr "grant_type=client_credentials")
        [("Authorization", "Basic " ++ enc); ("Content-Type", "application/x-www-form-urlencoded")] /\
    Base64.decode enc = Some (Base64.bytes_of_string ("client-id" ++ ":" ++ "client-secret")).
Proof. exact (token_request_credentials example_cfg "client-secret" eq_refl). Defined.

(** C21. With [PAYPAL_SECRET] unset or empty in the environment, the
    token exchange throws its wrapped "not set" error before any call. *)
Theorem token_exchange_without_secret (e : env) :
  env_get e "PAYPAL_SECRET" = None \/ env_get e "PAYPAL_SECRET" = Some "" ->
  getPayPalAccessToken (config_of_env e) =
  Throw (plain_error ("Failed to get PayPal access token: " ++ "PAYPAL_SECRET is not set in environment variables")).
Proof.
  intros He. apply getPayPalAccessToken_missing. unfold secret_missing. cbn [PAYPAL_SECRET config_of_env].
  destruct He as [-> | ->]; reflexivity.
Qed.

Lemma token_exchange_without_secret_witness :
  getPayPalAccessToken (config_of_env [("PAYPAL_SECRET", "")]) =
  Throw (plain_error ("Failed to get PayPal access token: " ++ "PAYPAL_SECRET is not set in environment variables")).
Proof. apply token_exchange_without_secret. right. reflexivity. Defined.

(** C22. A token response without a truthy [access_token] makes the
    exchange fail with "No access token in PayPal response", after
    exactly the one token call. *)
Theorem token_exchange_no_token {S : Type} (step : S -> call -> S * reply) (cfg : config)
    (s s1 : S) (data tok : jsval) :
  secret_missing cfg = false ->
  step s (token_request cfg) = (s1, Fulfilled data) ->
  get data "access_token" = Val tok -> truthy tok = false ->
  run step (getPayPalAccessToken cfg) s =
  (Failed (plain_error ("Failed to get PayPal access token: " ++ "No access token in PayPal response")),
   s1, [token_request cfg]).
Proof.
  intros Hs Hstep Hget Ht. unfold getPayPalAccessToken. rewrite Hs.
  rewrite run_try_catch, run_bind, run_await, Hstep. cbn [run lift]. rewrite Hget.
  cbn [run bind lift]. rewrite Ht. reflexivity.
Qed.

Lemma token_exchange_no_token_witness :
  run scripted (getPayPalAccessToken example_cfg) [Fulfilled (JObj [])] =
  (Failed (plain_error ("Failed to get PayPal access token: " ++ "No access token in PayPal response")),
   [], [token_request example_cfg]).
Proof. eapply token_exchange_no_token; reflexivity. Defined.

(** C23. A rejected token exchange is rethrown as a plain error whose
    message is the prefix and the processor's [error_description] (or the
    error's own message): the processor's status code is not kept. *)
Theorem token_exchange_rejected {S : Type} (step : S -> call -> S * reply) (cfg : config)
    (s s1 : S) (e : js_error) (st : Z) (data : jsval) (desc : string) :
  secret_missing cfg = false ->
  step s (token_request cfg) = (s1, Rejected e) ->
  err_response e = Some (st, data) -> get data "error_description" = Val (JStr desc) -> desc <> "" ->
  run step (getPayPalAccessToken cfg) s =
  (Failed (mk_error ("Failed to get PayPal access token: " ++ desc) None false), s1, [token_request cfg]).
Proof.
  intros Hs Hstep Hr Hd Hne. unfold getPayPalAccessToken. rewrite Hs.
  rewrite run_try_catch, run_bind, run_await, Hstep. cbn [run bind lift].
  assert (error_description e = Val (JStr desc)) as ->.
  { unfold error_description. rewrite Hr. destruct data; try discriminate; exact Hd. }
  cbn [run bind lift js_or truthy]. destruct desc as [|c desc]; [congruence|reflexivity].
Qed.

Lemma token_exchange_rejected_witness :
  run scripted (getPayPalAccessToken example_cfg)
    [Rejected (mk_error "Request failed with status code 401"
                 (Some (401, JObj [("error_description", JStr "Client Authentication failed")])) true)] =
  (Failed (mk_error ("Failed to get PayPal access token: " ++ "Client Authentication failed") None false),
   [], [token_request example_cfg]).
Proof. eapply token_exchange_rejected; try reflexivity. discriminate. Defined.

End PayPal.
