(* ===== verification/Orders.v ===== *)
(** * Order creation

    [POST /api/orders] (src/server.js, lines 134-253) and the legacy
    [POST /paypal-api/checkout/orders/create] (lines 256-289).

    [handle_create_order] follows the handler statement by statement:
    the secret check (139-144), the destructuring of [req.body] (146), the
    empty-cart check (148-154), the [cart.forEach] loop that prices the
    lines against the catalog and builds the items (157-179), the total
    check (181-187), the payload (190-205), the access token (211), the
    order call (216-225), the read of [response.data.id] in the log line
    (227) and the three branches of the [catch] (229-252).  The catalog
    is the [Catalog] class of [Catalog], so the theorems about totals
    hold for any catalog satisfying [CatalogWf], [FLAVORS] included.

    The lemmas give each branch of the handler and the runs of
    [place_order].  The properties cover several behaviours: a cart of
    unresolved lines is refused before any call; the secret is checked
    first; [Object.prototype] keys are priced like flavors; negative and
    fractional quantities are read as they are; a non-array cart makes
    [forEach] throw; and the legacy route is a pass-through. *)

From S2P Require Import Prelude JsNumber JsValue Catalog Effects PayPal.

Module Orders.
Import Number Value Catalog Relay PayPal.

Definition secret_not_configured : response :=
  mk_response 500 (JObj [("error", JStr "PayPal secret not configured. Please set PAYPAL_SECRET in .env file.")]).

Definition cart_empty_response : response :=
  mk_response 400 (JObj [("error", JStr "Cart is empty"); ("message", JStr "Please add items to cart before checkout")]).

Definition invalid_total_response : response :=
  mk_response 400 (JObj [("error", JStr "Invalid total"); ("message", JStr "Order total must be greater than 0")]).

(** [v === 0] *)
Definition strict_eq_zero (v : jsval) : bool :=
  match v with
  | JNum (Fin m _) => Z.eqb m 0
  | _ => false
  end.

(** A monadic left fold: [arr.forEach] whose callback may throw. *)
Fixpoint fold_res {A B} (f : A -> B -> res A) (acc : A) (l : list B) : res A :=
  match l with
  | [] => Val acc
  | x :: rest => res_bind (f acc x) (fun acc' => fold_res f acc' rest)
  end.

(** [{ name, quantity: quantity.toString(), unit_amount: { currency_code:
    "USD", value: price.toFixed(2) } }] (lines 168-175). *)
Definition line_item (flavor : lookup) (quantity price : num) : jsval :=
  JObj [("name", lookup_name flavor);
        ("quantity", JStr (num_to_string quantity));
        ("unit_amount", JObj [("currency_code", JStr "USD"); ("value", JStr (to_fixed 2 price))])].

(** [parseInt(item.quantity) || 1] (line 165). *)
Definition quantity_of (q : jsval) : res num :=
  let? s := to_string q in
  let n := parse_int s in
  Val (if num_truthy n then n else Fin 1 0).

(** The [(total, items)] of the order, as the loop builds them. *)
Definition order_totals := (num * list jsval)%type.

Definition orders_url (cfg : config) : string := PAYPAL_BASE_URL cfg ++ "/v2/checkout/orders".

(** The order call of lines 216-225. *)
Definition order_request (cfg : config) (payload : jsval) (t : string) : call :=
  AxiosPost (orders_url cfg) payload (bearer_headers t).

(** Lines 190-205. *)
Definition order_payload (total : num) (items : list jsval) : jsval :=
  JObj [("intent", JStr "CAPTURE");
        ("purchase_units", JArr [JObj [
           ("amount", JObj [("currency_code", JStr "USD"); ("value", JStr (to_fixed 2 total));
                            ("breakdown", JObj [("item_total", JObj [("currency_code", JStr "USD");
                                                                     ("value", JStr (to_fixed 2 total))])])]);
           ("items", JArr items)]])].

(** The [catch] of lines 229-252. *)
Definition create_order_error (error : js_error) : response :=
  match err_response error with
  | Some (st, data) =>
      mk_response (if Z.eqb st 0 then 500 else st)
        (error_body "Failed to create order" (js_or data (JStr (err_message error))))
  | None =>
      if err_request error then mk_response 500 (error_body "Failed to create order" (JStr "No response from PayPal API"))
      else mk_response 500 (error_body "Failed to create order" (JStr (err_message error)))
  end.

(** [error.response?.data || error.message] *)
Definition relayed_detail (error : js_error) : jsval :=
  js_or (match err_response error with Some (_, d) => d | None => JUndef end) (JStr (err_message error)).

Section WithCatalog.
Context `{Catalog}.

(** The callback of [cart.forEach] (lines 160-179). *)
Definition cart_step (acc : order_totals) (item : jsval) : res order_totals :=
  let '(total, items) := acc in
  let? id := get item "id" in
  let? key := to_string id in
  let flavor := catalog_get key in
  if found flavor then
    let price := price_of flavor in
    let? q := get item "quantity" in
    let? quantity := quantity_of q in
    Val (num_add total (num_mul price quantity), (items ++ [line_item flavor quantity price])%list)
  else
    (* [console.warn(`Flavor not found for item ID: ${item.id}`)] *)
    let? id' := get item "id" in
    let? _ := to_string id' in
    Val (total, items).

(** [let total = 0; const items = []; cart.forEach(...)]: only arrays
    have [forEach]. *)
Definition cart_loop (cart : jsval) : res order_totals :=
  match cart with
  | JArr l => fold_res cart_step (Fin 0 0, []) l
  | _ => Thrown (plain_error "cart.forEach is not a function")
  end.

(** [!cart || cart.length === 0] *)
Definition cart_is_empty (cart : jsval) : res bool :=
  if negb (truthy cart) then Val true
  else let? len := get cart "length" in Val (strict_eq_zero len).

(** What follows the total check: the token, then the order (lines
    209-228). *)
Definition place_order (cfg : config) (payload : jsval) : relay response :=
  let! accessToken := getPayPalAccessToken cfg in
  let! t := lift (to_string accessToken) in
  let! data := await (AxiosPost (orders_url cfg) payload (bearer_headers t)) in
  let! _ := lift (get data "id") in
  Ret (json data).

Definition handle_create_order (cfg : config) (req_body : jsval) : relay response :=
  try_catch
    (if secret_missing cfg then Ret secret_not_configured
     else
       let! cart := lift (destructure req_body "req.body" "cart") in
       let! empty := lift (cart_is_empty cart) in
       if empty then Ret cart_empty_response
       else
         let! acc := lift (cart_loop cart) in
         let '(total, items) := acc in
         if num_le total (Fin 0 0) then Ret invalid_total_response
         else place_order cfg (order_payload total items))
    (fun error => Ret (create_order_error error)).

End WithCatalog.

(** The legacy endpoint passes [req.body] through unchanged (lines
    256-289). *)
Definition handle_create_order_legacy (cfg : config) (req_body : jsval) : relay response :=
  try_catch
    (if secret_missing cfg then Ret secret_not_configured
     else
       let! accessToken := getPayPalAccessToken cfg in
       let! t := lift (to_string accessToken) in
       let! data := await (AxiosPost (orders_url cfg) req_body (bearer_headers t)) in
       Ret (json data))
    (fun error => Ret (mk_response 500 (error_body "Failed to create order" (relayed_detail error)))).

(** ** Lemmas *)

Lemma to_string_int (q : Z) : 0 < q < 10 ^ 21 -> to_string (JNum (Fin q 0)) = Val (Z_to_dec q).
Proof. intros Hq. cbn [to_string]. now rewrite num_to_string_int. Qed.

Lemma num_truthy_Fin (m e : Z) : m <> 0 -> num_truthy (Fin m e) = true.
Proof. intros Hm. simpl. now rewrite (proj2 (Z.eqb_neq m 0) Hm). Qed.

Lemma num_of_Z_exact (q : Z) : q <> 0 -> Z.abs q < 10 ^ 300 -> num_of_Z q = Fin q 0.
Proof. intros; apply round_dec_exact; lia. Qed.

(** A quantity given as a positive integer is read as itself. *)
Lemma quantity_of_int (q : Z) : 0 < q < 10 ^ 21 -> quantity_of (JNum (Fin q 0)) = Val (Fin q 0).
Proof.
  intros Hq. assert (10 ^ 21 < 10 ^ 300) by reflexivity.
  unfold quantity_of. rewrite to_string_int by lia. simpl res_bind.
  rewrite parse_int_Z_to_dec, num_of_Z_exact by lia. now rewrite num_truthy_Fin by lia.
Qed.

(** A negative integer quantity is read as itself too: [parseInt] keeps
    the sign and the result is truthy. *)
Lemma quantity_of_neg_int (q : Z) : 0 < q < 10 ^ 21 -> quantity_of (JNum (Fin (- q) 0)) = Val (Fin (- q) 0).
Proof.
  intros Hq. assert (10 ^ 21 < 10 ^ 300) by reflexivity.
  unfold quantity_of. cbn [to_string]. rewrite num_to_string_neg_int by lia. cbn [res_bind].
  rewrite parse_int_neg_Z_to_dec, num_of_Z_exact by lia. now rewrite num_truthy_Fin by lia.
Qed.

(** A quantity given as the decimal text of a positive integer too. *)
Lemma quantity_of_dec (q : Z) : 0 < q < 10 ^ 300 -> quantity_of (JStr (Z_to_dec q)) = Val (Fin q 0).
Proof.
  intros Hq. unfold quantity_of. simpl res_bind.
  rewrite parse_int_Z_to_dec, num_of_Z_exact by lia. now rewrite num_truthy_Fin by lia.
Qed.

Lemma strict_eq_zero_num_of_Z (n : Z) : 0 <= n < 10 ^ 300 -> strict_eq_zero (JNum (num_of_Z n)) = (n =? 0).
Proof.
  intros Hn. destruct (Z.eq_dec n 0) as [->|Hne]; [reflexivity|].
  rewrite num_of_Z_exact by lia. simpl. reflexivity.
Qed.

(** [!cart || cart.length === 0] on an array: the array has no element. *)
Lemma cart_is_empty_arr (l : list jsval) :
  (Z.of_nat (List.length l) < 10 ^ 300)%Z -> cart_is_empty (JArr l) = Val (Nat.eqb (List.length l) 0).
Proof.
  intros Hl. unfold cart_is_empty, get. cbn [truthy negb]. rewrite String.eqb_refl. cbn [res_bind].
  rewrite strict_eq_zero_num_of_Z by lia.
  f_equal. destruct (List.length l); reflexivity.
Qed.

Section StepLemmas.
Context `{CatalogWf}.

(** A line whose [id] resolves and whose quantity reads as [n] adds
    [unit * n] cents to the total and appends its line item. *)
Lemma cart_step_resolved (c n : Z) (items : list jsval) (item q : jsval) (k : string) :
  get item "id" = Val (JStr k) -> found (catalog_get k) = true ->
  get item "quantity" = Val q -> quantity_of q = Val (Fin n 0) ->
  Z.abs c < 10 ^ 300 -> Z.abs (catalog_unit * n) < 10 ^ 300 ->
  cart_step (cents c, items) item =
  Val (cents (c + catalog_unit * n), (items ++ [line_item (catalog_get k) (Fin n 0) (cents catalog_unit)])%list).
Proof.
  intros Hid Hf Hq Hn Hc Hu. pose proof catalog_unit_range.
  unfold cart_step. rewrite Hid. simpl res_bind. rewrite Hf, Hq. simpl res_bind. rewrite Hn. simpl res_bind.
  rewrite (catalog_price k Hf), num_mul_cents_int by lia. now rewrite num_add_cents.
Qed.

(** A line whose [id] is a string that does not resolve is skipped. *)
Lemma cart_step_unresolved (acc : order_totals) (item : jsval) (k : string) :
  get item "id" = Val (JStr k) -> found (catalog_get k) = false -> cart_step acc item = Val acc.
Proof.
  intros Hid Hf. destruct acc as [total items]. unfold cart_step.
  rewrite Hid. cbn [res_bind to_string]. now rewrite Hf.
Qed.

(** A loop over lines that all fail to resolve leaves the totals as
    they were. *)
Lemma fold_cart_unresolved (acc : order_totals) (items : list jsval) :
  Forall (fun item => exists k, get item "id" = Val (JStr k) /\ found (catalog_get k) = false) items ->
  fold_res cart_step acc items = Val acc.
Proof.
  intros Hall. revert acc. induction Hall as [|item items [k [Hid Hf]] _ IH]; intros acc; [reflexivity|].
  cbn [fold_res]. rewrite (cart_step_unresolved acc item k Hid Hf). apply IH.
Qed.

End StepLemmas.

(** ** The branches of the handler *)

Section Handler.
Context `{Catalog} (cfg : config).

(** C5. The secret is checked before anything else: without
    [PAYPAL_SECRET], [POST /api/orders] answers 500 "PayPal secret not
    configured" on every body, an empty or malformed cart included, and
    makes no call. *)
Lemma create_order_secret_missing (req_body : jsval) :
  secret_missing cfg = true -> handle_create_order cfg req_body = Ret secret_not_configured.
Proof. intros Hs. unfold handle_create_order. now rewrite Hs. Qed.

Lemma create_order_empty (req_body cart : jsval) :
  secret_missing cfg = false ->
  destructure req_body "req.body" "cart" = Val cart -> cart_is_empty cart = Val true ->
  handle_create_order cfg req_body = Ret cart_empty_response.
Proof.
  intros Hs Hd He. unfold handle_create_order. rewrite Hs, Hd. cbn [negb lift bind]. now rewrite He.
Qed.

Lemma create_order_nonpositive (req_body cart : jsval) (total : num) (items : list jsval) :
  secret_missing cfg = false ->
  destructure req_body "req.body" "cart" = Val cart -> cart_is_empty cart = Val false ->
  cart_loop cart = Val (total, items) -> num_le total (Fin 0 0) = true ->
  handle_create_order cfg req_body = Ret invalid_total_response.
Proof.
  intros Hs Hd He Hl Hle. unfold handle_create_order. rewrite Hs, Hd. cbn [negb lift bind].
  rewrite He, Hl. cbn [lift bind]. now rewrite Hle.
Qed.

(** Past validation, the handler is [place_order] under its [catch]. *)
Lemma create_order_places (req_body cart : jsval) (total : num) (items : list jsval) :
  secret_missing cfg = false ->
  destructure req_body "req.body" "cart" = Val cart -> cart_is_empty cart = Val false ->
  cart_loop cart = Val (total, items) -> num_le total (Fin 0 0) = false ->
  handle_create_order cfg req_body =
  try_catch (place_order cfg (order_payload total items)) (fun e => Ret (create_order_error e)).
Proof.
  intros Hs Hd He Hl Hle. unfold handle_create_order. rewrite Hs, Hd. cbn [negb lift bind].
  rewrite He, Hl. cbn [lift bind]. now rewrite Hle.
Qed.

(** An exception while reading the cart ends the handler in its
    [catch], before any call. *)
Lemma create_order_cart_throws (req_body cart : jsval) (e : js_error) :
  secret_missing cfg = false ->
  (destructure req_body "req.body" "cart" = Thrown e \/
   (destructure req_body "req.body" "cart" = Val cart /\
    (cart_is_empty cart = Thrown e \/ (cart_is_empty cart = Val false /\ cart_loop cart = Thrown e)))) ->
  handle_create_order cfg req_body = Ret (create_order_error e).
Proof.
  intros Hs Hcases. unfold handle_create_order. rewrite Hs.
  destruct Hcases as [Hd|[Hd [He|[He Hl]]]]; rewrite Hd; cbn [negb lift bind try_catch]; [reflexivity| |].
  - now rewrite He.
  - rewrite He, Hl. reflexivity.
Qed.

Section Run.
Context {S : Type} (step : S -> call -> S * reply).
Hypothesis Hsecret : secret_missing cfg = false.

(** The order is placed with the token the exchange returned, after the
    exchange, and its response is relayed. *)
Lemma run_place_order_ok (s s1 s2 : S) (payload d tok data idv : jsval) (t : string) :
  step s (token_request cfg) = (s1, Fulfilled d) ->
  get d "access_token" = Val tok -> truthy tok = true -> to_string tok = Val t ->
  step s1 (order_request cfg payload t) = (s2, Fulfilled data) -> get data "id" = Val idv ->
  run step (place_order cfg payload) s =
  (Done (json data), s2, [token_request cfg; order_request cfg payload t]).
Proof.
  intros H1 H2 H3 H4 H5 H6. unfold place_order.
  rewrite run_bind, (run_getPayPalAccessToken_ok step cfg Hsecret s s1 d tok H1 H2 H3).
  rewrite run_bind, run_lift, H4. cbn [run bind lift].
  rewrite run_bind. unfold await. cbn [run]. unfold order_request in H5. rewrite H5.
  cbn [run bind lift]. rewrite H6. reflexivity.
Qed.

(** An order answer whose [id] cannot be read (null data) throws after
    the order was placed. *)
Lemma run_place_order_unreadable (s s1 s2 : S) (payload d tok data : jsval) (t : string) (e : js_error) :
  step s (token_request cfg) = (s1, Fulfilled d) ->
  get d "access_token" = Val tok -> truthy tok = true -> to_string tok = Val t ->
  step s1 (order_request cfg payload t) = (s2, Fulfilled data) -> get data "id" = Thrown e ->
  run step (place_order cfg payload) s = (Failed e, s2, [token_request cfg; order_request cfg payload t]).
Proof.
  intros H1 H2 H3 H4 H5 H6. unfold place_order.
  rewrite run_bind, (run_getPayPalAccessToken_ok step cfg Hsecret s s1 d tok H1 H2 H3).
  rewrite run_bind, run_lift, H4. cbn [run bind lift].
  rewrite run_bind. unfold await. cbn [run]. unfold order_request in H5. rewrite H5.
  cbn [run bind lift]. rewrite H6. reflexivity.
Qed.

(** A rejected order call surfaces its error, after the two calls. *)
Lemma run_place_order_rejected (s s1 s2 : S) (payload d tok : jsval) (t : string) (e : js_error) :
  step s (token_request cfg) = (s1, Fulfilled d) ->
  get d "access_token" = Val tok -> truthy tok = true -> to_string tok = Val t ->
  step s1 (order_request cfg payload t) = (s2, Rejected e) ->
  run step (place_order cfg payload) s = (Failed e, s2, [token_request cfg; order_request cfg payload t]).
Proof.
  intros H1 H2 H3 H4 H5. unfold place_order.
  rewrite run_bind, (run_getPayPalAccessToken_ok step cfg Hsecret s s1 d tok H1 H2 H3).
  rewrite run_bind, run_lift, H4. cbn [run bind lift].
  rewrite run_bind. unfold await. cbn [run]. unfold order_request in H5. rewrite H5. reflexivity.
Qed.

End Run.
End Handler.


(** ** Properties *)

(** C4. A non-empty cart none of whose lines resolves in the catalog is
    refused with 400 "Invalid total" and no call. *)
Theorem create_order_unresolved_cart `{Catalog} (cfg : config) (items : list jsval) :
  secret_missing cfg = false -> items <> [] -> (Z.of_nat (List.length items) < 10 ^ 300)%Z ->
  Forall (fun item => exists k, get item "id" = Val (JStr k) /\ found (catalog_get k) = false) items ->
  handle_create_order cfg (JObj [("cart", JArr items)]) = Ret invalid_total_response.
Proof.
  intros Hs Hne Hlen Hall.
  apply (create_order_nonpositive cfg _ (JArr items) (Fin 0 0) []); [exact Hs|reflexivity| | |reflexivity].
  - rewrite cart_is_empty_arr by exact Hlen. destruct items; [congruence|reflexivity].
  - unfold cart_loop. now apply fold_cart_unresolved.
Qed.

(** C6. A cart line whose [id] names a property of [Object.prototype]
    ([constructor], [toString], [__proto__], ...) is priced by
    [FLAVORS] at 15.00 per unit like a flavor, and becomes an order item
    named after the inherited property. *)
Theorem cart_loop_prototype_key (k : string) (n : Z) :
  In k ("__proto__" :: map fst object_prototype_methods) -> (0 < n < 10 ^ 14)%Z ->
  cart_loop (JArr [JObj [("id", JStr k); ("quantity", JNum (Fin n 0))]]) =
  Val (cents (1500 * n), [line_item (catalog_get k) (Fin n 0) (cents 1500)]).
Proof.
  intros Hk Hn. assert ((10 ^ 14 < 10 ^ 21)%Z /\ (10 ^ 21 < 10 ^ 300)%Z) as [? ?] by (split; reflexivity).
  unfold cart_loop. cbn [fold_res]. rewrite <- cents_zero.
  rewrite (cart_step_resolved 0 n [] _ (JNum (Fin n 0)) k)
    by first [reflexivity | now apply flavors_proto_found | apply quantity_of_int; lia | cbn; lia].
  reflexivity.
Qed.

(** C7. A negative quantity is accepted: [parseInt(-m) || 1] is [-m], so
    the line is sent with quantity [-m] and subtracts [m] units from the
    total of the order. *)
Theorem cart_loop_negative_quantity `{CatalogWf} (k : string) (n m : Z) :
  found (catalog_get k) = true -> (0 < n < 10 ^ 9)%Z -> (0 < m < 10 ^ 9)%Z ->
  cart_loop (JArr [JObj [("id", JStr k); ("quantity", JNum (Fin n 0))];
                   JObj [("id", JStr k); ("quantity", JNum (Fin (- m) 0))]]) =
  Val (cents (catalog_unit * (n - m)),
       [line_item (catalog_get k) (Fin n 0) (cents catalog_unit);
        line_item (catalog_get k) (Fin (- m) 0) (cents catalog_unit)]).
Proof.
  intros Hf Hn Hm. pose proof catalog_unit_range.
  assert ((10 ^ 9 < 10 ^ 21)%Z /\ (10 ^ 6 * 10 ^ 9 < 10 ^ 300)%Z) as [? ?] by (split; reflexivity).
  unfold cart_loop. cbn [fold_res]. rewrite <- cents_zero.
  rewrite (cart_step_resolved 0 n [] _ (JNum (Fin n 0)) k) by first [reflexivity | assumption | apply quantity_of_int; lia | nia].
  cbn [res_bind fold_res app].
  rewrite (cart_step_resolved _ (- m) _ _ (JNum (Fin (- m) 0)) k)
    by first [reflexivity | assumption | apply quantity_of_neg_int; lia | nia].
  cbn [res_bind fold_res app]. do 3 f_equal. lia.
Qed.

(** C8. A [cart] that is truthy, not empty and not an array (a string,
    an object with a [length]) makes [cart.forEach] throw: the handler
    answers 500 with the TypeError's message, and makes no call. *)
Theorem create_order_not_array `{Catalog} (cfg : config) (cart : jsval) :
  secret_missing cfg = false -> (forall l, cart <> JArr l) -> cart_is_empty cart = Val false ->
  handle_create_order cfg (JObj [("cart", cart)]) =
  Ret (mk_response 500 (error_body "Failed to create order" (JStr "cart.forEach is not a function"))).
Proof.
  intros Hs Harr He.
  rewrite (create_order_cart_throws cfg _ cart (plain_error "cart.forEach is not a function") Hs).
  - reflexivity.
  - right. split; [reflexivity|]. right. split; [exact He|].
    destruct cart; try reflexivity. exfalso. eapply Harr. reflexivity.
Qed.

(** C24. The legacy create route forwards [req.body] unchanged as the
    order, after the token exchange, and relays the processor's answer;
    when the order call fails it answers 500 whatever the processor's
    status. *)
Theorem legacy_create_run {S : Type} (step : S -> call -> S * reply) (cfg : config)
    (req_body d tok : jsval) (t : string) (s s1 s2 : S) (r : reply) :
  secret_missing cfg = false ->
  step s (token_request cfg) = (s1, Fulfilled d) ->
  get d "access_token" = Val tok -> truthy tok = true -> to_string tok = Val t ->
  step s1 (order_request cfg req_body t) = (s2, r) ->
  run step (handle_create_order_legacy cfg req_body) s =
  (Done (match r with
         | Fulfilled data => json data
         | Rejected e => mk_response 500 (error_body "Failed to create order" (relayed_detail e))
         end), s2, [token_request cfg; order_request cfg req_body t]).
Proof.
  intros Hs H1 H2 H3 H4 H5. unfold handle_create_order_legacy. rewrite Hs.
  rewrite run_try_catch_ret, run_bind, (run_getPayPalAccessToken_ok step cfg Hs s s1 d tok H1 H2 H3).
  rewrite run_bind, run_lift, H4. cbn [run bind lift].
  rewrite run_bind. unfold await. cbn [run]. unfold order_request in H5. rewrite H5.
  destruct r; reflexivity.
Qed.


(** C25. [parseInt(quantity) || 1] on a safe integer quantity (at most
    [2^53] in magnitude) gives the quantity itself, of either sign; only
    [0] becomes [1]. *)
Theorem quantity_of_integer (q : Z) :
  (Z.abs q <= 2 ^ 53)%Z -> quantity_of (JNum (Fin q 0)) = Val (if q =? 0 then Fin 1 0 else Fin q 0)%Z.
Proof.
  intros Hq. assert (Hq' : (Z.abs q < 10 ^ 21)%Z) by (eapply Z.le_lt_trans; [exact Hq|reflexivity]). destruct (Z.eqb_spec q 0) as [->|Hne]; [reflexivity|].
  destruct (Z.ltb_spec 0 q); [apply quantity_of_int; lia|].
  replace q with (- (- q))%Z by lia. apply quantity_of_neg_int. lia.
Qed.

(** C26. A quantity written as a decimal fraction is truncated:
    ["q.f"] is read as the integer [q] (and ["0.f"] as [1]). *)
Theorem quantity_of_fraction (q : Z) (frac : string) :
  (0 <= q <= 2 ^ 53)%Z ->
  quantity_of (JStr (Z_to_dec q ++ "." ++ frac)) = Val (if q =? 0 then Fin 1 0 else Fin q 0)%Z.
Proof.
  intros Hq. assert ((2 ^ 53 < 10 ^ 300)%Z) by reflexivity.
  unfold quantity_of. cbn [to_string res_bind].
  rewrite parse_int_Z_to_dec_app; [|lia|].
  - destruct (Z.eqb_spec q 0) as [->|Hne]; [reflexivity|].
    rewrite num_of_Z_exact by lia. now rewrite num_truthy_Fin.
  - intros c r Hc. rewrite append_String_l, append_empty_l in Hc. injection Hc as <- _.
    repeat split; reflexivity.
Qed.

(** ** Examples *)

Lemma create_order_unresolved_cart_witness :
  handle_create_order example_cfg (JObj [("cart", JArr [JObj [("id", JStr "unicorn"); ("quantity", JNum (Fin 2 0))]])]) =
  Ret invalid_total_response.
Proof.
  apply create_order_unresolved_cart; [reflexivity|discriminate|reflexivity|].
  repeat constructor. exists "unicorn". split; reflexivity.
Defined.

Lemma create_order_secret_missing_witness :
  handle_create_order (mk_config "client-id" None "https://api-m.sandbox.paypal.com" "sk_test") (JObj [("cart", JArr [])]) =
  Ret secret_not_configured.
Proof. apply create_order_secret_missing. reflexivity. Defined.

Lemma cart_loop_prototype_key_witness :
  cart_loop (JArr [JObj [("id", JStr "constructor"); ("quantity", JNum (Fin 2 0))]]) =
  Val (cents (1500 * 2), [line_item (catalog_get "constructor") (Fin 2 0) (cents 1500)]).
Proof. apply cart_loop_prototype_key; [simpl; auto|lia]. Defined.

Lemma cart_loop_negative_quantity_witness :
  cart_loop (JArr [JObj [("id", JStr "granola"); ("quantity", JNum (Fin 3 0))];
                   JObj [("id", JStr "granola"); ("quantity", JNum (Fin (- 1) 0))]]) =
  Val (cents (1500 * (3 - 1)),
       [line_item (catalog_get "granola") (Fin 3 0) (cents 1500);
        line_item (catalog_get "granola") (Fin (- 1) 0) (cents 1500)]).
Proof. exact (cart_loop_negative_quantity "granola" 3 1 eq_refl ltac:(lia) ltac:(lia)). Defined.

Lemma create_order_not_array_witness :
  handle_create_order example_cfg (JObj [("cart", JStr "granola")]) =
  Ret (mk_response 500 (error_body "Failed to create order" (JStr "cart.forEach is not a function"))).
Proof. apply create_order_not_array; [reflexivity|discriminate|reflexivity]. Defined.

Lemma legacy_create_run_witness :
  run scripted (handle_create_order_legacy example_cfg (JObj [("intent", JStr "CAPTURE")]))
    [Fulfilled (JObj [("access_token", JStr "A21")]);
     Rejected (mk_error "Request failed with status code 422" (Some (422, JObj [("name", JStr "UNPROCESSABLE_ENTITY")])) true)] =
  (Done (mk_response 500 (error_body "Failed to create order" (JObj [("name", JStr "UNPROCESSABLE_ENTITY")]))), [],
   [token_request example_cfg; order_request example_cfg (JObj [("intent", JStr "CAPTURE")]) "A21"]).
Proof.
  eapply (legacy_create_run scripted example_cfg _ _ _ _ _ _ _
            (Rejected (mk_error "Request failed with status code 422"
                         (Some (422, JObj [("name", JStr "UNPROCESSABLE_ENTITY")])) true))); reflexivity.
Defined.


Lemma quantity_of_integer_witness : quantity_of (JNum (Fin (-3) 0)) = Val (Fin (-3) 0).
Proof. exact (quantity_of_integer (-3) ltac:(lia)). Defined.

Lemma quantity_of_fraction_witness : quantity_of (JStr ("2" ++ "." ++ "7")) = Val (Fin 2 0).
Proof. exact (quantity_of_fraction 2 "7" ltac:(lia)). Defined.

End Orders.
