(* ===== verification/Spec.v ===== *)
(** * The abstract specification of order creation, and its refinement

    What [POST /api/orders] promises, stated without JavaScript: a cart is
    a list of [cart_line]s, each a catalog key and a positive integer
    quantity; an empty cart is refused with 400 before any call; any other
    cart is charged [unit * quantity] cents per line, and the order the
    processor receives has as its total the two-decimal text of the sum
    and one item per line, in order, with the flavor's name, the quantity
    as decimal text and the unit price as two-decimal text
    ([spec_payload]); the order is placed with a fresh access token and
    the processor's answer relayed ([Orders.place_order]).

    [create_order_refines] proves that the handler, given the JSON cart
    that encodes such a list, is exactly this program: the JavaScript
    number semantics, the catalog lookups and the [forEach] loop compute
    the abstract totals.  The theorem is stated for every catalog that
    satisfies [CatalogWf], and [FLAVORS] is one, on totals of at most
    [2^53] dollars.  The runs of the handler against any processor follow
    from it: the successful run and its two calls
    ([create_order_run_ok]), a rejected order whose status is mirrored
    ([create_order_run_upstream_error]), and an accepted order answered
    with [null] data that the handler reports as a failure
    ([create_order_null_data]).  The examples run the handler on the cart
    of two bags of granola against the [scripted] processor. *)

From S2P Require Import Prelude JsNumber JsValue Catalog Effects PayPal Orders.

Module Spec.
Import Number Value Catalog Relay PayPal Orders.

Record cart_line := mk_line { line_key : string; line_qty : Z }.

(** The JSON a storefront sends for a cart line and for a cart. *)
Definition line_json (l : cart_line) : jsval :=
  JObj [("id", JStr (line_key l)); ("quantity", JNum (Fin (line_qty l) 0))].

Definition order_body (lines : list cart_line) : jsval :=
  JObj [("cart", JArr (map line_json lines))].

Section Abstract.
Context `{CatalogWf}.

Definition line_ok (l : cart_line) : Prop :=
  found (catalog_get (line_key l)) = true /\ (0 < line_qty l < 10 ^ 15)%Z.

Definition line_okb (l : cart_line) : bool :=
  found (catalog_get (line_key l)) && (0 <? line_qty l)%Z && (line_qty l <? 10 ^ 15)%Z.

(** The total of a cart, in cents. *)
Definition spec_total (lines : list cart_line) : Z :=
  fold_right (fun l acc => catalog_unit * line_qty l + acc)%Z 0%Z lines.

Definition spec_item (l : cart_line) : jsval :=
  JObj [("name", lookup_name (catalog_get (line_key l)));
        ("quantity", JStr (Z_to_dec (line_qty l)));
        ("unit_amount", JObj [("currency_code", JStr "USD"); ("value", JStr (cents_to_string catalog_unit))])].

Definition spec_payload (lines : list cart_line) : jsval :=
  let v := JStr (cents_to_string (spec_total lines)) in
  JObj [("intent", JStr "CAPTURE");
        ("purchase_units", JArr [JObj [
           ("amount", JObj [("currency_code", JStr "USD"); ("value", v);
                            ("breakdown", JObj [("item_total", JObj [("currency_code", JStr "USD"); ("value", v)])])]);
           ("items", JArr (map spec_item lines))]])].

Definition spec_create_order (cfg : config) (lines : list cart_line) : relay response :=
  match lines with
  | [] => Ret cart_empty_response
  | _ => try_catch (place_order cfg (spec_payload lines)) (fun e => Ret (create_order_error e))
  end.

End Abstract.

(** ** Lemmas *)

Section Lemmas.
Context `{CatalogWf}.

Lemma get_line_id (l : cart_line) : get (line_json l) "id" = Val (JStr (line_key l)).
Proof. reflexivity. Qed.

Lemma get_line_qty (l : cart_line) : get (line_json l) "quantity" = Val (JNum (Fin (line_qty l) 0)).
Proof. reflexivity. Qed.

Lemma spec_total_cons (l : cart_line) (lines : list cart_line) :
  spec_total (l :: lines) = (catalog_unit * line_qty l + spec_total lines)%Z.
Proof. reflexivity. Qed.

(** Every line costs at least one cent. *)
Lemma spec_total_ge_length (lines : list cart_line) :
  Forall line_ok lines -> (Z.of_nat (List.length lines) <= spec_total lines)%Z.
Proof.
  pose proof catalog_unit_range.
  induction 1 as [|l lines [_ Hq] _ IH]; [simpl; lia|].
  rewrite spec_total_cons. simpl List.length. nia.
Qed.

Lemma line_item_spec (l : cart_line) :
  line_ok l -> line_item (catalog_get (line_key l)) (Fin (line_qty l) 0) (cents catalog_unit) = spec_item l.
Proof.
  intros [_ Hq]. pose proof catalog_unit_range.
  assert ((10 ^ 15 < 10 ^ 21)%Z /\ (10 ^ 6 < 10 ^ 23)%Z) as [? ?] by (split; reflexivity).
  unfold line_item, spec_item. rewrite num_to_string_int, to_fixed_cents by lia. reflexivity.
Qed.

(** The [forEach] loop over the JSON of well-formed lines adds up the
    abstract total and emits the abstract items. *)
Lemma fold_cart_lines (lines : list cart_line) (c : Z) (items : list jsval) :
  Forall line_ok lines -> (0 <= c)%Z -> (c + spec_total lines < 10 ^ 23)%Z ->
  fold_res cart_step (cents c, items) (map line_json lines) =
  Val (cents (c + spec_total lines), (items ++ map spec_item lines)%list).
Proof.
  pose proof catalog_unit_range.
  assert (Hb : (10 ^ 23 < 10 ^ 300)%Z) by reflexivity.
  intros Hok. revert c items. induction Hok as [|l lines Hl Hok IH]; intros c items Hc Hbound.
  - simpl. rewrite app_nil_r. do 3 f_equal. lia.
  - pose proof (spec_total_ge_length lines Hok). destruct Hl as [Hf Hq].
    rewrite spec_total_cons in Hbound.
    cbn [map fold_res].
    rewrite (cart_step_resolved c (line_qty l) items (line_json l) (JNum (Fin (line_qty l) 0)) (line_key l));
      [| apply get_line_id | exact Hf | apply get_line_qty | apply quantity_of_int; split; [lia|] | lia | nia].
    2: { apply Z.lt_trans with (10 ^ 15)%Z; [lia|reflexivity]. }
    cbn [res_bind]. rewrite IH by nia.
    rewrite line_item_spec by (split; assumption).
    rewrite spec_total_cons, <- app_assoc. do 3 f_equal. lia.
Qed.

Lemma cart_loop_lines (lines : list cart_line) :
  Forall line_ok lines -> (spec_total lines < 10 ^ 23)%Z ->
  cart_loop (JArr (map line_json lines)) = Val (cents (spec_total lines), map spec_item lines).
Proof.
  intros Hok Hb. unfold cart_loop. rewrite <- cents_zero.
  rewrite fold_cart_lines by (auto; lia). reflexivity.
Qed.

(** The handler's payload for those totals is the abstract payload. *)
Lemma order_payload_spec (lines : list cart_line) :
  (0 <= spec_total lines < 10 ^ 23)%Z ->
  order_payload (cents (spec_total lines)) (map spec_item lines) = spec_payload lines.
Proof. intros Hb. unfold order_payload, spec_payload. now rewrite to_fixed_cents. Qed.

End Lemmas.

(** ** Refinement *)

Section Refinement.
Context `{CatalogWf}.

(** The JSON of a non-empty cart of well-formed lines passes every check
    of the handler, with the abstract totals. *)
Lemma order_body_validates (lines : list cart_line) :
  lines <> [] -> Forall line_ok lines -> (spec_total lines < 10 ^ 23)%Z ->
  destructure (order_body lines) "req.body" "cart" = Val (JArr (map line_json lines)) /\
  cart_is_empty (JArr (map line_json lines)) = Val false /\
  cart_loop (JArr (map line_json lines)) = Val (cents (spec_total lines), map spec_item lines) /\
  num_le (cents (spec_total lines)) (Fin 0 0) = false.
Proof.
  intros Hne Hok Hb. pose proof (spec_total_ge_length lines Hok) as Hlen.
  assert (Hl : (0 < List.length lines)%nat) by (destruct lines; [congruence|simpl; lia]).
  split; [reflexivity|]. split; [|split; [apply cart_loop_lines; assumption|]].
  - rewrite cart_is_empty_arr by (rewrite length_map; lia). rewrite length_map.
    destruct (List.length lines); [lia|reflexivity].
  - rewrite num_le_cents_zero by (apply Z.lt_trans with (10 ^ 23)%Z; [lia|reflexivity]).
    apply Z.leb_gt. lia.
Qed.

Lemma handle_create_order_nonempty (cfg : config) (lines : list cart_line) :
  secret_missing cfg = false -> lines <> [] -> Forall line_ok lines -> (spec_total lines < 10 ^ 23)%Z ->
  handle_create_order cfg (order_body lines) =
  try_catch (place_order cfg (spec_payload lines)) (fun e => Ret (create_order_error e)).
Proof.
  intros Hs Hne Hok Hb. destruct (order_body_validates lines Hne Hok Hb) as (Hd & He & Hl & Hle).
  rewrite (create_order_places cfg _ _ _ _ Hs Hd He Hl Hle).
  pose proof (spec_total_ge_length lines Hok). rewrite order_payload_spec by lia. reflexivity.
Qed.

(** Totals of at most [2^53] dollars are within the range where
    [toFixed] prints without exponent. *)
Lemma total_below_fixed (c : Z) : (c <= 100 * 2 ^ 53)%Z -> (c < 10 ^ 23)%Z.
Proof. intros Hc. eapply Z.le_lt_trans; [exact Hc|reflexivity]. Qed.

(** C1. Order creation refines its abstract specification: on the JSON of
    any cart of well-formed lines whose total is at most [2^53] dollars,
    with the secret configured, [POST /api/orders] is exactly the
    abstract program: an empty cart is refused with 400 and no call, any
    other is placed with the payload computed from integer totals. *)
Theorem create_order_refines (cfg : config) (lines : list cart_line) :
  secret_missing cfg = false -> Forall line_ok lines -> (spec_total lines <= 100 * 2 ^ 53)%Z ->
  handle_create_order cfg (order_body lines) = spec_create_order cfg lines.
Proof.
  intros Hs Hok Hb. apply total_below_fixed in Hb. destruct lines as [|l rest] eqn:El.
  - apply (create_order_empty cfg _ (JArr []) Hs); reflexivity.
  - rewrite <- El in *. rewrite handle_create_order_nonempty by (subst; congruence || assumption).
    subst lines. reflexivity.
Qed.

(** C2. The whole run of [POST /api/orders] on a non-empty well-formed
    cart: exactly two calls, first the token exchange and then the order,
    posted with the token as [Bearer] and the abstract payload; the
    processor's order is relayed with status 200. *)
Theorem create_order_run_ok {S : Type} (step : S -> call -> S * reply) (cfg : config)
    (lines : list cart_line) (s s1 s2 : S) (d tok data idv : jsval) (t : string) :
  secret_missing cfg = false -> lines <> [] -> Forall line_ok lines -> (spec_total lines <= 100 * 2 ^ 53)%Z ->
  step s (token_request cfg) = (s1, Fulfilled d) ->
  get d "access_token" = Val tok -> truthy tok = true -> to_string tok = Val t ->
  step s1 (order_request cfg (spec_payload lines) t) = (s2, Fulfilled data) -> get data "id" = Val idv ->
  run step (handle_create_order cfg (order_body lines)) s =
  (Done (json data), s2, [token_request cfg; order_request cfg (spec_payload lines) t]).
Proof.
  intros Hs Hne Hok Hb H1 H2 H3 H4 H5 H6. apply total_below_fixed in Hb.
  rewrite handle_create_order_nonempty, run_try_catch_ret by assumption.
  now rewrite (run_place_order_ok cfg step Hs s s1 s2 _ d tok data idv t H1 H2 H3 H4 H5 H6).
Qed.

(** C3. When the processor rejects the order with an HTTP response, the
    handler answers with that response's status (unless it is 0) and its
    data, after the same two calls. *)
Theorem create_order_run_upstream_error {S : Type} (step : S -> call -> S * reply) (cfg : config)
    (lines : list cart_line) (s s1 s2 : S) (d tok data : jsval) (t : string) (e : js_error) (st : Z) :
  secret_missing cfg = false -> lines <> [] -> Forall line_ok lines -> (spec_total lines <= 100 * 2 ^ 53)%Z ->
  step s (token_request cfg) = (s1, Fulfilled d) ->
  get d "access_token" = Val tok -> truthy tok = true -> to_string tok = Val t ->
  step s1 (order_request cfg (spec_payload lines) t) = (s2, Rejected e) ->
  err_response e = Some (st, data) -> st <> 0%Z ->
  run step (handle_create_order cfg (order_body lines)) s =
  (Done (mk_response st (error_body "Failed to create order" (js_or data (JStr (err_message e))))),
   s2, [token_request cfg; order_request cfg (spec_payload lines) t]).
Proof.
  intros Hs Hne Hok Hb H1 H2 H3 H4 H5 Hr Hst. apply total_below_fixed in Hb.
  rewrite handle_create_order_nonempty, run_try_catch_ret by assumption.
  rewrite (run_place_order_rejected cfg step Hs s s1 s2 _ d tok t e H1 H2 H3 H4 H5).
  unfold create_order_error. rewrite Hr, (proj2 (Z.eqb_neq st 0) Hst). reflexivity.
Qed.

(** C27. An order the processor accepts but answers with [null] data is
    reported to the client as a failure: the log line's read of
    [response.data.id] throws, and the handler answers 500 although the
    order was created. *)
Theorem create_order_null_data {S : Type} (step : S -> call -> S * reply) (cfg : config)
    (lines : list cart_line) (s s1 s2 : S) (d tok : jsval) (t : string) :
  secret_missing cfg = false -> lines <> [] -> Forall line_ok lines -> (spec_total lines <= 100 * 2 ^ 53)%Z ->
  step s (token_request cfg) = (s1, Fulfilled d) ->
  get d "access_token" = Val tok -> truthy tok = true -> to_string tok = Val t ->
  step s1 (order_request cfg (spec_payload lines) t) = (s2, Fulfilled JNull) ->
  run step (handle_create_order cfg (order_body lines)) s =
  (Done (mk_response 500 (error_body "Failed to create order" (JStr "Cannot read properties of null (reading 'id')"))),
   s2, [token_request cfg; order_request cfg (spec_payload lines) t]).
Proof.
  intros Hs Hne Hok Hb H1 H2 H3 H4 H5. apply total_below_fixed in Hb.
  rewrite handle_create_order_nonempty, run_try_catch_ret by assumption.
  now rewrite (run_place_order_unreadable cfg step Hs s s1 s2 _ d tok JNull t _ H1 H2 H3 H4 H5 eq_refl).
Qed.

End Refinement.

(** ** Examples: one line of two bags of granola *)

Lemma create_order_refines_witness :
  handle_create_order example_cfg (order_body [mk_line "granola" 2]) =
  spec_create_order example_cfg [mk_line "granola" 2].
Proof. apply create_order_refines; [reflexivity|repeat constructor; lia|simpl; lia]. Defined.

Lemma create_order_run_ok_witness :
  run scripted (handle_create_order example_cfg (order_body [mk_line "granola" 2]))
    [Fulfilled (JObj [("access_token", JStr "A21")]); Fulfilled (JObj [("id", JStr "5O190127TN364715T")])] =
  (Done (json (JObj [("id", JStr "5O190127TN364715T")])), [],
   [token_request example_cfg; order_request example_cfg (spec_payload [mk_line "granola" 2]) "A21"]).
Proof. eapply create_order_run_ok; try reflexivity; [discriminate|repeat constructor; lia|simpl; lia]. Defined.

Lemma create_order_run_upstream_error_witness :
  run scripted (handle_create_order example_cfg (order_body [mk_line "granola" 2]))
    [Fulfilled (JObj [("access_token", JStr "A21")]);
     Rejected (mk_error "Request failed with status code 422" (Some (422, JObj [("name", JStr "UNPROCESSABLE_ENTITY")])) true)] =
  (Done (mk_response 422 (error_body "Failed to create order" (JObj [("name", JStr "UNPROCESSABLE_ENTITY")]))), [],
   [token_request example_cfg; order_request example_cfg (spec_payload [mk_line "granola" 2]) "A21"]).
Proof.
  eapply (create_order_run_upstream_error scripted example_cfg _ _ _ _ _ _ (JObj [("name", JStr "UNPROCESSABLE_ENTITY")]) _
            (mk_error "Request failed with status code 422" (Some (422, JObj [("name", JStr "UNPROCESSABLE_ENTITY")])) true));
    try reflexivity; [discriminate|repeat constructor; lia|simpl; lia|discriminate].
Defined.

Lemma create_order_null_data_witness :
  run scripted (handle_create_order example_cfg (order_body [mk_line "granola" 2]))
    [Fulfilled (JObj [("access_token", JStr "A21")]); Fulfilled JNull] =
  (Done (mk_response 500 (error_body "Failed to create order" (JStr "Cannot read properties of null (reading 'id')"))),
   [], [token_request example_cfg; order_request example_cfg (spec_payload [mk_line "granola" 2]) "A21"]).
Proof. eapply create_order_null_data; try reflexivity; [discriminate|repeat constructor; lia|simpl; lia]. Defined.

End Spec.
