(* ===== verification/Handlers.v ===== *)
(** * The other endpoints

    [POST /paypal-api/client-token] (src/server.js, lines 102-131), the
    two capture routes [POST /api/orders/:orderID/capture] (292-325) and
    [POST /paypal-api/checkout/orders/:orderId/capture] (328-361), the
    Stripe routes [POST /stripe-api/create-payment-intent] (364-397) and
    [POST /stripe-api/confirm-payment-intent] (400-423), and
    [GET /health] (426-428).

    A capture handler receives the route parameter, which Express always
    provides as a string, so [const { orderID } = req.params] cannot
    throw and the parameter is passed as a [string].  The Stripe client
    is created once with [STRIPE_SECRET_KEY] (line 37); every Stripe call
    carries that key. *)

From S2P Require Import Prelude JsNumber JsValue Catalog Effects PayPal Orders.

Module Handlers.
Import Number Value Catalog Relay PayPal Orders.

(** ** Client token *)

Definition client_token_error (error : js_error) : response :=
  mk_response 500 (error_body "Failed to generate client token" (JStr (err_message error))).

Definition handle_client_token (cfg : config) : relay response :=
  try_catch
    (if secret_missing cfg then Ret secret_not_configured
     else
       let! accessToken := getPayPalAccessToken cfg in
       let! clientToken := generatePayPalClientToken cfg accessToken in
       Ret (json (JObj [("clientToken", clientToken)])))
    (fun error => Ret (client_token_error error)).

(** The call of [generatePayPalClientToken] (lines 86-92). *)
Definition client_token_request (cfg : config) (t : string) : call :=
  AxiosPost (client_token_url cfg) (JObj []) (bearer_headers t).

(** ** Capture *)

Definition capture_url (cfg : config) (orderID : string) : string :=
  PAYPAL_BASE_URL cfg ++ "/v2/checkout/orders/" ++ orderID ++ "/capture".

(** The capture call (lines 303-312). *)
Definition capture_request (cfg : config) (orderID t : string) : call :=
  AxiosPost (capture_url cfg orderID) (JObj []) (bearer_headers t).

Definition capture_error (error : js_error) : response :=
  mk_response 500 (error_body "Failed to capture order" (relayed_detail error)).

(** Lines 292-325. *)
Definition handle_capture (cfg : config) (orderID : string) : relay response :=
  try_catch
    (if secret_missing cfg then Ret secret_not_configured
     else
       let! accessToken := getPayPalAccessToken cfg in
       let! t := lift (to_string accessToken) in
       let! data := await (AxiosPost (capture_url cfg orderID) (JObj []) (bearer_headers t)) in
       Ret (json data))
    (fun error => Ret (capture_error error)).

(** Lines 328-361, the legacy route with the parameter [orderId]. *)
Definition handle_capture_legacy (cfg : config) (orderId : string) : relay response :=
  try_catch
    (if secret_missing cfg then Ret secret_not_configured
     else
       let! accessToken := getPayPalAccessToken cfg in
       let! t := lift (to_string accessToken) in
       let! data := await (AxiosPost (capture_url cfg orderId) (JObj []) (bearer_headers t)) in
       Ret (json data))
    (fun error => Ret (capture_error error)).

(** ** Stripe *)

Definition invalid_amount_response : response :=
  mk_response 400 (JObj [("error", JStr "Invalid amount"); ("message", JStr "Amount must be greater than 0")]).

Definition missing_intent_id_response : response :=
  mk_response 400 (JObj [("error", JStr "Payment intent ID is required")]).

(** [JSON.stringify(v)] as a property value. *)
Definition json_text (v : jsval) : jsval :=
  match stringify v with Some s => JStr s | None => JUndef end.

(** The argument of [stripeClient.paymentIntents.create] (lines 376-385). *)
Definition intent_params (amount currency items : jsval) : jsval :=
  JObj [("amount", amount); ("currency", currency);
        ("metadata", JObj [("items", json_text (js_or items (JArr [])))]);
        ("automatic_payment_methods", JObj [("enabled", JBool true)])].

(** [!amount || amount <= 0] (line 368). *)
Definition amount_invalid (amount : jsval) : res bool :=
  if negb (truthy amount) then Val true else le_zero amount.

Definition intent_error (what : string) (error : js_error) : response :=
  mk_response 500 (error_body what (JStr (err_message error))).

(** Lines 364-397; [const { amount, currency = 'usd', items } = req.body]. *)
Definition handle_create_payment_intent (cfg : config) (req_body : jsval) : relay response :=
  try_catch
    (let! amount := lift (destructure req_body "req.body" "amount") in
     let! currency0 := lift (get req_body "currency") in
     let currency := match currency0 with JUndef => JStr "usd" | c => c end in
     let! items := lift (get req_body "items") in
     let! invalid := lift (amount_invalid amount) in
     if invalid then Ret invalid_amount_response
     else
       let! paymentIntent := await (StripeCreate (STRIPE_SECRET_KEY cfg) (intent_params amount currency items)) in
       let! cs := lift (get paymentIntent "client_secret") in
       Ret (json (JObj [("clientSecret", cs)])))
    (fun error => Ret (intent_error "Failed to create payment intent" error)).

(** Lines 400-423. *)
Definition handle_confirm_payment_intent (cfg : config) (req_body : jsval) : relay response :=
  try_catch
    (let! paymentIntentId := lift (destructure req_body "req.body" "paymentIntentId") in
     if negb (truthy paymentIntentId) then Ret missing_intent_id_response
     else
       let! paymentIntent := await (StripeRetrieve (STRIPE_SECRET_KEY cfg) paymentIntentId) in
       let! st := lift (get paymentIntent "status") in
       Ret (json (JObj [("status", st); ("paymentIntent", paymentIntent)])))
    (fun error => Ret (intent_error "Failed to confirm payment intent" error)).

(** ** Health *)

Definition handle_health : response :=
  json (JObj [("status", JStr "ok"); ("message", JStr "Server is running")]).

(** ** Lemmas *)

Lemma amount_invalid_falsy (amount : jsval) : truthy amount = false -> amount_invalid amount = Val true.
Proof. intros H. unfold amount_invalid. now rewrite H. Qed.

Lemma amount_invalid_num (n : num) :
  num_truthy n = true -> amount_invalid (JNum n) = Val (num_le n (Fin 0 0)).
Proof. intros H. unfold amount_invalid. simpl truthy. now rewrite H. Qed.

Section Handler.
Context (cfg : config).

Lemma create_payment_intent_invalid (req_body amount : jsval) :
  destructure req_body "req.body" "amount" = Val amount -> amount_invalid amount = Val true ->
  handle_create_payment_intent cfg req_body = Ret invalid_amount_response.
Proof.
  intros Hd Hi. unfold handle_create_payment_intent. rewrite Hd. cbn [lift bind].
  destruct req_body as [| | | | | |fs]; try discriminate; cbn [get lift bind]; rewrite Hi; reflexivity.
Qed.

(** A valid amount goes to Stripe with the parameters of lines 376-385. *)
Lemma create_payment_intent_calls (req_body amount currency items : jsval) :
  destructure req_body "req.body" "amount" = Val amount ->
  get req_body "currency" = Val currency -> get req_body "items" = Val items ->
  amount_invalid amount = Val false ->
  handle_create_payment_intent cfg req_body =
  try_catch
    (let! paymentIntent := await (StripeCreate (STRIPE_SECRET_KEY cfg)
                                    (intent_params amount (match currency with JUndef => JStr "usd" | c => c end) items)) in
     let! cs := lift (get paymentIntent "client_secret") in
     Ret (json (JObj [("clientSecret", cs)])))
    (fun error => Ret (intent_error "Failed to create payment intent" error)).
Proof.
  intros Hd Hc Hi Hv. unfold handle_create_payment_intent.
  rewrite Hd; cbn [lift bind]; rewrite Hc; cbn [lift bind]; rewrite Hi; cbn [lift bind]; rewrite Hv.
  reflexivity.
Qed.

Section Run.
Context {S : Type} (step : S -> call -> S * reply).
Hypothesis Hsecret : secret_missing cfg = false.

Lemma run_capture (orderID : string) (s s1 s2 : S) (d tok : jsval) (t : string) (r : reply) :
  step s (token_request cfg) = (s1, Fulfilled d) ->
  get d "access_token" = Val tok -> truthy tok = true -> to_string tok = Val t ->
  step s1 (capture_request cfg orderID t) = (s2, r) ->
  run step (handle_capture cfg orderID) s =
  (Done (match r with Fulfilled data => json data | Rejected e => capture_error e end),
   s2, [token_request cfg; capture_request cfg orderID t]).
Proof.
  intros H1 H2 H3 H4 H5. unfold handle_capture. rewrite Hsecret.
  rewrite run_try_catch_ret, run_bind, (run_getPayPalAccessToken_ok step cfg Hsecret s s1 d tok H1 H2 H3).
  rewrite run_bind, run_lift, H4. cbn [run bind lift].
  rewrite run_bind. unfold await. cbn [run]. unfold capture_request in H5. rewrite H5.
  destruct r; reflexivity.
Qed.

Lemma run_client_token (s s1 s2 : S) (d tok data ct : jsval) (t : string) :
  step s (token_request cfg) = (s1, Fulfilled d) ->
  get d "access_token" = Val tok -> truthy tok = true -> to_string tok = Val t ->
  step s1 (client_token_request cfg t) = (s2, Fulfilled data) -> get data "client_token" = Val ct ->
  run step (handle_client_token cfg) s =
  (Done (json (JObj [("clientToken", ct)])), s2, [token_request cfg; client_token_request cfg t]).
Proof.
  intros H1 H2 H3 H4 H5 H6. unfold handle_client_token. rewrite Hsecret.
  rewrite run_try_catch_ret, run_bind, (run_getPayPalAccessToken_ok step cfg Hsecret s s1 d tok H1 H2 H3).
  rewrite run_bind, (run_generatePayPalClientToken_ok step cfg s1 s2 tok data ct t H4 H5 H6).
  reflexivity.
Qed.

End Run.
End Handler.


(** ** Properties *)

(** C9. Every other PayPal endpoint checks the secret first: without
    [PAYPAL_SECRET], the client-token route, the legacy create route and
    both capture routes answer 500 "PayPal secret not configured" and make
    no call. *)
Theorem paypal_handlers_secret_missing (cfg : config) (req_body : jsval) (id : string) :
  secret_missing cfg = true ->
  handle_client_token cfg = Ret secret_not_configured /\
  handle_create_order_legacy cfg req_body = Ret secret_not_configured /\
  handle_capture cfg id = Ret secret_not_configured /\
  handle_capture_legacy cfg id = Ret secret_not_configured.
Proof.
  intros Hs. unfold handle_client_token, handle_create_order_legacy, handle_capture, handle_capture_legacy.
  rewrite Hs. repeat split.
Qed.

(** C10. [POST /stripe-api/create-payment-intent] refuses with 400
    "Invalid amount", before any call, an amount that is falsy (missing,
    [0], [""], [null], [false], [NaN]) or a number at most 0. *)
Theorem payment_intent_invalid_amount (cfg : config) (req_body amount : jsval) :
  destructure req_body "req.body" "amount" = Val amount ->
  truthy amount = false \/ (exists n, amount = JNum n /\ num_le n (Fin 0 0) = true) ->
  handle_create_payment_intent cfg req_body = Ret invalid_amount_response.
Proof.
  intros Hd Hcases. apply (create_payment_intent_invalid cfg req_body amount Hd).
  destruct Hcases as [Hf|(n & -> & Hle)]; [now apply amount_invalid_falsy|].
  destruct (num_truthy n) eqn:Ht; [rewrite amount_invalid_num by exact Ht; now rewrite Hle|].
  now apply amount_invalid_falsy.
Qed.

(** C11. A positive integer amount with no currency and no items creates
    one payment intent with the configured key, the amount, the default
    currency ["usd"], the items metadata ["[]"] and automatic payment
    methods, and answers 200 with the intent's [client_secret]. *)
Theorem payment_intent_run_ok {S : Type} (step : S -> call -> S * reply) (cfg : config)
    (s s1 : S) (amount : Z) (pi cs : jsval) :
  (0 < amount)%Z ->
  step s (StripeCreate (STRIPE_SECRET_KEY cfg)
            (JObj [("amount", JNum (Fin amount 0)); ("currency", JStr "usd");
                   ("metadata", JObj [("items", JStr "[]")]);
                   ("automatic_payment_methods", JObj [("enabled", JBool true)])])) = (s1, Fulfilled pi) ->
  get pi "client_secret" = Val cs ->
  run step (handle_create_payment_intent cfg (JObj [("amount", JNum (Fin amount 0))])) s =
  (Done (json (JObj [("clientSecret", cs)])), s1,
   [StripeCreate (STRIPE_SECRET_KEY cfg)
      (JObj [("amount", JNum (Fin amount 0)); ("currency", JStr "usd");
             ("metadata", JObj [("items", JStr "[]")]);
             ("automatic_payment_methods", JObj [("enabled", JBool true)])])]).
Proof.
  intros Ha Hstep Hcs.
  rewrite (create_payment_intent_calls cfg _ (JNum (Fin amount 0)) JUndef JUndef); try reflexivity.
  - rewrite run_try_catch_ret, run_bind, run_await. change (intent_params _ _ _) with
      (JObj [("amount", JNum (Fin amount 0)); ("currency", JStr "usd");
             ("metadata", JObj [("items", JStr "[]")]);
             ("automatic_payment_methods", JObj [("enabled", JBool true)])]).
    rewrite Hstep. cbn [run bind lift]. rewrite Hcs. reflexivity.
  - rewrite amount_invalid_num by (apply num_truthy_Fin; lia).
    unfold num_le, num_compare, align. cbn [Z.min]. rewrite !Z.sub_diag, Z.pow_0_r, !Z.mul_1_r.
    now rewrite (proj2 (Z.compare_gt_iff amount 0)) by exact Ha.
Qed.

(** C12. A non-empty string amount that is not a number passes the
    check [!amount || amount <= 0] ([NaN <= 0] is false): the handler
    creates a payment intent with that string as the amount instead of
    answering 400. *)
Theorem payment_intent_non_numeric_amount (cfg : config) (a : string) :
  a <> "" -> string_to_number a = NaN ->
  calls_in (handle_create_payment_intent cfg (JObj [("amount", JStr a)]))
    (StripeCreate (STRIPE_SECRET_KEY cfg) (intent_params (JStr a) (JStr "usd") JUndef)).
Proof.
  intros Hne Hnan.
  rewrite (create_payment_intent_calls cfg _ (JStr a) JUndef JUndef); try reflexivity.
  - constructor.
  - unfold amount_invalid. destruct a; [congruence|]. cbn [truthy negb].
    unfold le_zero, to_number. cbn [res_bind]. now rewrite Hnan.
Qed.

(** C13. [POST /api/orders/:orderID/capture]: after the token exchange,
    one empty-bodied call to [/v2/checkout/orders/:orderID/capture] with
    the token as [Bearer]; the processor's answer is relayed with 200. *)
Theorem capture_run_ok {S : Type} (step : S -> call -> S * reply) (cfg : config) (orderID : string)
    (s s1 s2 : S) (d tok data : jsval) (t : string) :
  secret_missing cfg = false ->
  step s (token_request cfg) = (s1, Fulfilled d) ->
  get d "access_token" = Val tok -> truthy tok = true -> to_string tok = Val t ->
  step s1 (AxiosPost (PAYPAL_BASE_URL cfg ++ "/v2/checkout/orders/" ++ orderID ++ "/capture") (JObj [])
             [("Authorization", "Bearer " ++ t); ("Content-Type", "application/json")]) = (s2, Fulfilled data) ->
  run step (handle_capture cfg orderID) s =
  (Done (json data), s2,
   [token_request cfg;
    AxiosPost (PAYPAL_BASE_URL cfg ++ "/v2/checkout/orders/" ++ orderID ++ "/capture") (JObj [])
      [("Authorization", "Bearer " ++ t); ("Content-Type", "application/json")]]).
Proof. intros Hs H1 H2 H3 H4 H5. exact (run_capture cfg step Hs orderID s s1 s2 d tok t (Fulfilled data) H1 H2 H3 H4 H5). Qed.

(** C14. A failed capture always answers 500, whatever status the
    processor answered with; only its data (or the error message) is
    relayed. *)
Theorem capture_error_always_500 {S : Type} (step : S -> call -> S * reply) (cfg : config) (orderID : string)
    (s s1 s2 : S) (d tok data : jsval) (t : string) (e : js_error) (st : Z) :
  secret_missing cfg = false ->
  step s (token_request cfg) = (s1, Fulfilled d) ->
  get d "access_token" = Val tok -> truthy tok = true -> to_string tok = Val t ->
  step s1 (capture_request cfg orderID t) = (s2, Rejected e) -> err_response e = Some (st, data) ->
  run step (handle_capture cfg orderID) s =
  (Done (mk_response 500 (error_body "Failed to capture order" (js_or data (JStr (err_message e))))),
   s2, [token_request cfg; capture_request cfg orderID t]).
Proof.
  intros Hs H1 H2 H3 H4 H5 Hr. rewrite (run_capture cfg step Hs orderID s s1 s2 d tok t (Rejected e) H1 H2 H3 H4 H5).
  unfold capture_error, relayed_detail. now rewrite Hr.
Qed.

(** C15. [POST /paypal-api/client-token]: the token exchange, then one
    call to [/v1/identity/generate-token] with the token as [Bearer]; the
    processor's [client_token] is answered as [clientToken]. *)
Theorem client_token_run_ok {S : Type} (step : S -> call -> S * reply) (cfg : config)
    (s s1 s2 : S) (d tok data : jsval) (t ct : string) :
  secret_missing cfg = false ->
  step s (token_request cfg) = (s1, Fulfilled d) ->
  get d "access_token" = Val tok -> truthy tok = true -> to_string tok = Val t ->
  step s1 (AxiosPost (PAYPAL_BASE_URL cfg ++ "/v1/identity/generate-token") (JObj [])
             [("Authorization", "Bearer " ++ t); ("Content-Type", "application/json")]) = (s2, Fulfilled data) ->
  get data "client_token" = Val (JStr ct) ->
  run step (handle_client_token cfg) s =
  (Done (json (JObj [("clientToken", JStr ct)])), s2,
   [token_request cfg;
    AxiosPost (PAYPAL_BASE_URL cfg ++ "/v1/identity/generate-token") (JObj [])
      [("Authorization", "Bearer " ++ t); ("Content-Type", "application/json")]]).
Proof. intros Hs H1 H2 H3 H4 H5 H6. exact (run_client_token cfg step Hs s s1 s2 d tok data (JStr ct) t H1 H2 H3 H4 H5 H6). Qed.

(** C16. An answer of the processor without [client_token] is not
    detected: the route answers 200, and the JSON it sends is [{}]. *)
Theorem client_token_missing_field {S : Type} (step : S -> call -> S * reply) (cfg : config)
    (s s1 s2 : S) (d tok data : jsval) (t : string) :
  secret_missing cfg = false ->
  step s (token_request cfg) = (s1, Fulfilled d) ->
  get d "access_token" = Val tok -> truthy tok = true -> to_string tok = Val t ->
  step s1 (client_token_request cfg t) = (s2, Fulfilled data) -> get data "client_token" = Val JUndef ->
  exists r, run step (handle_client_token cfg) s = (Done r, s2, [token_request cfg; client_token_request cfg t]) /\
    status r = 200%Z /\ stringify (body r) = Some "{}".
Proof.
  intros Hs H1 H2 H3 H4 H5 H6. eexists. split; [exact (run_client_token cfg step Hs s s1 s2 d tok data JUndef t H1 H2 H3 H4 H5 H6)|].
  split; reflexivity.
Qed.

(** C17. [POST /stripe-api/confirm-payment-intent] refuses with 400 a
    falsy [paymentIntentId], before any call. *)
Theorem confirm_missing_id (cfg : config) (req_body pid : jsval) :
  destructure req_body "req.body" "paymentIntentId" = Val pid -> truthy pid = false ->
  handle_confirm_payment_intent cfg req_body = Ret missing_intent_id_response.
Proof. intros Hd Ht. unfold handle_confirm_payment_intent. rewrite Hd. cbn [lift bind]. now rewrite Ht. Qed.

(** C18. A truthy [paymentIntentId] is retrieved from Stripe with the
    configured key, and the route answers 200 with the intent's status
    and the intent. *)
Theorem confirm_run_ok {S : Type} (step : S -> call -> S * reply) (cfg : config) (s s1 : S)
    (req_body pid pi st : jsval) :
  destructure req_body "req.body" "paymentIntentId" = Val pid -> truthy pid = true ->
  step s (StripeRetrieve (STRIPE_SECRET_KEY cfg) pid) = (s1, Fulfilled pi) -> get pi "status" = Val st ->
  run step (handle_confirm_payment_intent cfg req_body) s =
  (Done (json (JObj [("status", st); ("paymentIntent", pi)])), s1, [StripeRetrieve (STRIPE_SECRET_KEY cfg) pid]).
Proof.
  intros Hd Ht Hstep Hst. unfold handle_confirm_payment_intent. rewrite Hd. cbn [lift bind]. rewrite Ht.
  cbn [negb]. rewrite run_try_catch_ret, run_bind, run_await, Hstep. cbn [run bind lift].
  rewrite Hst. reflexivity.
Qed.

(** C19. The two capture routes behave the same: the legacy route with
    [:orderId] is the route with [:orderID]. *)
Theorem capture_routes_equivalent {S : Type} (step : S -> call -> S * reply) (cfg : config) (id : string) (s : S) :
  run step (handle_capture_legacy cfg id) s = run step (handle_capture cfg id) s.
Proof. reflexivity. Qed.


(** ** Examples *)

Lemma paypal_handlers_secret_missing_witness :
  let cfg := mk_config "client-id" None "https://api-m.sandbox.paypal.com" "sk_test" in
  handle_client_token cfg = Ret secret_not_configured /\
  handle_create_order_legacy cfg (JObj []) = Ret secret_not_configured /\
  handle_capture cfg "5O190127TN364715T" = Ret secret_not_configured /\
  handle_capture_legacy cfg "5O190127TN364715T" = Ret secret_not_configured.
Proof. apply paypal_handlers_secret_missing. reflexivity. Defined.

Lemma payment_intent_invalid_amount_witness :
  handle_create_payment_intent example_cfg (JObj [("amount", JNum (Fin (-5) 0))]) = Ret invalid_amount_response.
Proof.
  apply (payment_intent_invalid_amount example_cfg _ (JNum (Fin (-5) 0))); [reflexivity|].
  right. eexists. split; reflexivity.
Defined.

Lemma payment_intent_run_ok_witness :
  run scripted (handle_create_payment_intent example_cfg (JObj [("amount", JNum (Fin 1999 0))]))
    [Fulfilled (JObj [("id", JStr "pi_1"); ("client_secret", JStr "pi_1_secret_2")])] =
  (Done (json (JObj [("clientSecret", JStr "pi_1_secret_2")])), [],
   [StripeCreate (STRIPE_SECRET_KEY example_cfg)
      (JObj [("amount", JNum (Fin 1999 0)); ("currency", JStr "usd");
             ("metadata", JObj [("items", JStr "[]")]);
             ("automatic_payment_methods", JObj [("enabled", JBool true)])])]).
Proof. eapply payment_intent_run_ok; [lia|reflexivity|reflexivity]. Defined.

Lemma payment_intent_non_numeric_amount_witness :
  calls_in (handle_create_payment_intent example_cfg (JObj [("amount", JStr "abc")]))
    (StripeCreate (STRIPE_SECRET_KEY example_cfg) (intent_params (JStr "abc") (JStr "usd") JUndef)).
Proof. apply payment_intent_non_numeric_amount; [discriminate|vm_compute; reflexivity]. Defined.

Lemma capture_run_ok_witness :
  run scripted (handle_capture example_cfg "5O190127TN364715T")
    [Fulfilled (JObj [("access_token", JStr "A21")]);
     Fulfilled (JObj [("id", JStr "5O190127TN364715T"); ("status", JStr "COMPLETED")])] =
  (Done (json (JObj [("id", JStr "5O190127TN364715T"); ("status", JStr "COMPLETED")])), [],
   [token_request example_cfg;
    AxiosPost (PAYPAL_BASE_URL example_cfg ++ "/v2/checkout/orders/" ++ "5O190127TN364715T" ++ "/capture") (JObj [])
      [("Authorization", "Bearer " ++ "A21"); ("Content-Type", "application/json")]]).
Proof. eapply capture_run_ok; reflexivity. Defined.

Lemma capture_error_always_500_witness :
  run scripted (handle_capture example_cfg "5O190127TN364715T")
    [Fulfilled (JObj [("access_token", JStr "A21")]);
     Rejected (mk_error "Request failed with status code 404" (Some (404, JObj [("name", JStr "RESOURCE_NOT_FOUND")])) true)] =
  (Done (mk_response 500 (error_body "Failed to capture order"
                            (js_or (JObj [("name", JStr "RESOURCE_NOT_FOUND")]) (JStr "Request failed with status code 404")))),
   [], [token_request example_cfg; capture_request example_cfg "5O190127TN364715T" "A21"]).
Proof.
  eapply (capture_error_always_500 scripted example_cfg "5O190127TN364715T" _ _ _ _ _
            (JObj [("name", JStr "RESOURCE_NOT_FOUND")]) _
            (mk_error "Request failed with status code 404" (Some (404, JObj [("name", JStr "RESOURCE_NOT_FOUND")])) true) 404);
    reflexivity.
Defined.

Lemma client_token_run_ok_witness :
  run scripted (handle_client_token example_cfg)
    [Fulfilled (JObj [("access_token", JStr "A21")]); Fulfilled (JObj [("client_token", JStr "eyJ2")])] =
  (Done (json (JObj [("clientToken", JStr "eyJ2")])), [],
   [token_request example_cfg;
    AxiosPost (PAYPAL_BASE_URL example_cfg ++ "/v1/identity/generate-token") (JObj [])
      [("Authorization", "Bearer " ++ "A21"); ("Content-Type", "application/json")]]).
Proof. eapply client_token_run_ok; reflexivity. Defined.

Lemma client_token_missing_field_witness :
  exists r, run scripted (handle_client_token example_cfg)
              [Fulfilled (JObj [("access_token", JStr "A21")]); Fulfilled (JObj [("expires_in", JNum (Fin 3600 0))])] =
            (Done r, [], [token_request example_cfg; client_token_request example_cfg "A21"]) /\
    status r = 200%Z /\ stringify (body r) = Some "{}".
Proof. eapply client_token_missing_field; reflexivity. Defined.

Lemma confirm_missing_id_witness :
  handle_confirm_payment_intent example_cfg (JObj []) = Ret missing_intent_id_response.
Proof. apply (confirm_missing_id example_cfg (JObj []) JUndef); reflexivity. Defined.

Lemma confirm_run_ok_witness :
  run scripted (handle_confirm_payment_intent example_cfg (JObj [("paymentIntentId", JStr "pi_1")]))
    [Fulfilled (JObj [("id", JStr "pi_1"); ("status", JStr "succeeded")])] =
  (Done (json (JObj [("status", JStr "succeeded"); ("paymentIntent", JObj [("id", JStr "pi_1"); ("status", JStr "succeeded")])])),
   [], [StripeRetrieve (STRIPE_SECRET_KEY example_cfg) (JStr "pi_1")]).
Proof. eapply confirm_run_ok; reflexivity. Defined.

End Handlers.
